(** * Crypto risk dashboard (app.py): shallow embedding and verified properties

    The Python script polls a price API, cleans the reply, classifies the
    24h change into a risk label, appends observations to a session-scoped
    history and renders a snapshot table and a pivoted price chart.

    Modelling choices
    - Python floats: finite values are carried as rationals (every binary64
      number is one), next to the two infinities and NaN.  Only [abs],
      comparison against integer literals and the NA test are interpreted;
      conversions and rounding that depend on the binary64 grid are taken
      as parameters of the section that uses them.
    - Python dicts: association lists in insertion order with first-match
      lookup; [dict_set] overwrites in place or appends, like [d[k] = v].
    - Effects: a state-and-exception monad over a [world] holding the
      Streamlit session state, the widgets emitted so far and the outbound
      HTTP requests issued so far.
    - pandas frames: lists of row records in row order. *)

From Stdlib Require Import List String Ascii ZArith QArith Qabs Bool Lia.
From Stdlib Require Import Sorting.Sorted Structures.OrdersEx RelationClasses.
Import ListNotations.

Local Open Scope string_scope.
Local Open Scope Z_scope.

(** ** Python floats *)

Module PyFloat.

Inductive float : Type :=
| Finite (q : Q)
| PosInf
| NegInf
| NaN.

(** [abs(x)] *)
Definition fabs (x : float) : float :=
  match x with
  | Finite q => Finite (Qabs q)
  | PosInf | NegInf => PosInf
  | NaN => NaN
  end.

(** [x >= n] for an integer literal [n]; every comparison with NaN is
    false. *)
Definition ge_int (x : float) (n : Z) : bool :=
  match x with
  | Finite q => Qle_bool (inject_Z n) q
  | PosInf => true
  | NegInf => false
  | NaN => false
  end.

Definition is_nan (x : float) : bool :=
  match x with NaN => true | _ => false end.

(** pandas' [notna] on a float cell. *)
Definition notna (x : float) : bool := negb (is_nan x).

Definition zero : float := Finite 0.
Definition of_bool (b : bool) : float := Finite (if b then 1 else 0).

(** Mathematical reading of [|c| >= n] and [|c| < n] on the extended
    reals; both are false of NaN. *)
Definition abs_ge (c : float) (n : Z) : Prop :=
  match c with
  | Finite q => (inject_Z n <= Qabs q)%Q
  | PosInf | NegInf => True
  | NaN => False
  end.

Definition abs_lt (c : float) (n : Z) : Prop :=
  match c with
  | Finite q => (Qabs q < inject_Z n)%Q
  | PosInf | NegInf => False
  | NaN => False
  end.

End PyFloat.
Import PyFloat.

(** ** Risk classification (app.py, classify_risk) *)

Definition classify_risk (change_24h : float) : string :=
  let abs_change := fabs change_24h in
  if ge_int abs_change 10 then "HIGH"
  else if ge_int abs_change 5 then "MEDIUM"
  else "LOW".

(** ** Python dicts: insertion-ordered association lists *)

Definition dict (V : Type) : Type := list (string * V).

(** [k in d] / [d.get(k)] *)
Fixpoint dict_get {V : Type} (d : dict V) (k : string) : option V :=
  match d with
  | [] => None
  | (k', v) :: rest => if String.eqb k' k then Some v else dict_get rest k
  end.

(** [d.get(k, default)] *)
Definition dict_get_default {V : Type} (d : dict V) (k : string) (dflt : V) : V :=
  match dict_get d k with
  | Some v => v
  | None => dflt
  end.

(** [d[k] = v]: an existing key keeps its position, a new key goes last. *)
Fixpoint dict_set {V : Type} (d : dict V) (k : string) (v : V) : dict V :=
  match d with
  | [] => [(k, v)]
  | (k', v') :: rest =>
      if String.eqb k' k then (k, v) :: rest else (k', v') :: dict_set rest k v
  end.

(** Truthiness of a list or dict: empty is false. *)
Definition truthy {A : Type} (l : list A) : bool :=
  match l with [] => false | _ :: _ => true end.

(** ** Configuration (app.py, CONFIG) *)

Definition COINS : dict string :=
  [ ("Bitcoin (BTC)", "bitcoin");
    ("Ethereum (ETH)", "ethereum");
    ("Solana (SOL)", "solana");
    ("Tether (USDT)", "tether");
    ("BNB (BNB)", "binancecoin");
    ("XRP (XRP)", "ripple") ].

Definition FIAT_CURRENCY : string := "usd".
Definition API_URL : string := "https://api.coingecko.com/api/v3/simple/price".

(** [{v: k for k, v in COINS.items()}] *)
Definition id_to_display : dict string :=
  fold_left (fun acc kv => dict_set acc (snd kv) (fst kv)) COINS [].

(** ** Python values and exceptions *)

(** What [response.json()] can hand back. *)
#[warnings="-register-all"]
Inductive pyval : Type :=
| PNone
| PBool (b : bool)
| PInt (z : Z)
| PFloat (f : float)
| PStr (s : string)
| PList (l : list pyval)
| PDict (d : list (string * pyval)).

Inductive exn : Type :=
| AttributeError
| TypeError
| ValueError
| OverflowError
| RecursionError
| KeyError (key : string)
| RequestException (msg : string).

Inductive result (A : Type) : Type :=
| Ok (a : A)
| Raise (e : exn).
Arguments Ok {A} a.
Arguments Raise {A} e.

Definition rbind {A B : Type} (r : result A) (k : A -> result B) : result B :=
  match r with
  | Ok a => k a
  | Raise e => Raise e
  end.

Notation "'let?' x ':=' r 'in' k" := (rbind r (fun x => k))
  (at level 10, x name, r at level 100, k at level 200).

(** [v.get(k, default)]: only a dict has the method. *)
Definition py_get (v : pyval) (k : string) (dflt : pyval) : result pyval :=
  match v with
  | PDict d => Ok (dict_get_default d k dflt)
  | _ => Raise AttributeError
  end.

(** [v.items()] *)
Definition py_items (v : pyval) : result (list (string * pyval)) :=
  match v with
  | PDict d => Ok d
  | _ => Raise AttributeError
  end.

(** ** Session records *)

(** One cleaned API entry: [{"price": ..., "change_24h": ...}]. *)
Record quote : Type := mkQuote {
  q_price : float;
  q_change_24h : float
}.

(** One row of the history frame. *)
Record Observation : Type := mkObservation {
  timestamp : Z;
  coin_name : string;
  coin_id : string;
  price : float;
  change_24h : float;
  risk : string
}.

(** One row of the snapshot frame. *)
Record snapshot_row : Type := mkSnapshotRow {
  Coin : string;
  Price_USD : float;
  Change_24h_pct : float;
  Risk_Level : string
}.

(** The pivoted chart frame: column labels, then one row per index label
    with one cell per column (NaN where the pivot has no value). *)
Record pivot_frame : Type := mkPivot {
  pv_columns : list string;
  pv_rows : list (Z * list float)
}.

(** ** The world around the script *)

Record http_request : Type := mkRequest {
  rq_url : string;
  rq_params : dict string;
  rq_timeout : Z
}.

(** What [response.json()] does with the body: it returns the decoded
    value or raises.  A body that is no JSON raises
    [requests.exceptions.JSONDecodeError], a [RequestException] since
    requests 2.27 and a plain [ValueError] before; a body nested too
    deeply raises [RecursionError]. *)
Inductive json_outcome : Type :=
| JsonValue (raw : pyval)
| JsonRaises (e : exn).

(** A response as the script reads it: the status code, the text of the
    [HTTPError] that [raise_for_status] builds for it, and the body. *)
Record response : Type := mkResponse {
  status_code : Z;
  http_error_text : string;
  json_body : json_outcome
}.

(** What [requests.get] does: it raises (a [RequestException] for a
    connection error or a timeout, possibly something else) or returns a
    response, whatever its status. *)
Inductive http_outcome : Type :=
| GetRaises (e : exn)
| GetReturns (r : response).

(** Streamlit widgets that carry data.  Page configuration, titles,
    captions, sub-headers, dividers and the static help panel are not
    recorded. *)
Inductive widget : Type :=
| StError (msg : string)
| StSuccess (msg : string)
| StWarning (msg : string)
| StInfo (msg : string)
| StMarkdown (body : string)
| StMetric (label : string) (value : float) (delta : string)
| StLineChart (chart_df : pivot_frame)
| StDataframe (rows : list Observation).

(** [st.session_state]: each key is absent until first assigned. *)
Record session_state : Type := mkSession {
  ss_history : option (list Observation);
  ss_last_live_data : option (dict quote)
}.

Record world : Type := mkWorld {
  session : session_state;
  widgets : list widget;
  requests : list http_request
}.

(** What one run of the script reads from outside: the sidebar widgets,
    the network and the clock. *)
Record run_env : Type := mkEnv {
  clicked : bool;
  selected_coins_display : list string;
  http_reply : http_request -> http_outcome;
  utcnow : Z
}.

(** Builtins whose results depend on the binary64 grid or on pandas'
    sorting routine. *)
Class Runtime : Type := {
  (** [float(n)] for an int: OverflowError past the binary64 range. *)
  float_of_int : Z -> result float;
  (** [float(s)] for a str: ValueError when it does not parse. *)
  float_of_str : string -> result float;
  (** [round(x, ndigits)] *)
  round_ndigits : float -> Z -> float;
  (** [str(x)] as an f-string interpolates it. *)
  float_str : float -> string;
  (** [df.sort_values("timestamp", ascending=False)] *)
  sort_values_timestamp_desc : list Observation -> list Observation
}.

(** ** State-and-exception monad *)

Definition M (A : Type) : Type := world -> result A * world.

Definition ret {A : Type} (a : A) : M A := fun w => (Ok a, w).

Definition bind {A B : Type} (m : M A) (k : A -> M B) : M B :=
  fun w =>
    match m w with
    | (Ok a, w') => k a w'
    | (Raise e, w') => (Raise e, w')
    end.

Definition lift {A : Type} (r : result A) : M A := fun w => (r, w).

Notation "x <- m ;; k" := (bind m (fun x => k))
  (at level 61, m at next level, right associativity).
Notation "m ;; k" := (bind m (fun _ => k))
  (at level 61, right associativity).

Definition emit (x : widget) : M unit :=
  fun w => (Ok tt, mkWorld (session w) (widgets w ++ [x]) (requests w)).

Definition get_session : M session_state := fun w => (Ok (session w), w).

Definition put_session (s : session_state) : M unit :=
  fun w => (Ok tt, mkWorld s (widgets w) (requests w)).

(** [st.session_state["history"]] *)
Definition get_history : M (list Observation) :=
  s <- get_session ;;
  match ss_history s with
  | Some h => ret h
  | None => lift (Raise (KeyError "history"))
  end.

(** [st.session_state["history"] = h] *)
Definition set_history (h : list Observation) : M unit :=
  s <- get_session ;;
  put_session (mkSession (Some h) (ss_last_live_data s)).

(** [st.session_state["last_live_data"]] *)
Definition get_last_live_data : M (dict quote) :=
  s <- get_session ;;
  match ss_last_live_data s with
  | Some d => ret d
  | None => lift (Raise (KeyError "last_live_data"))
  end.

(** [st.session_state["last_live_data"] = d] *)
Definition set_last_live_data (d : dict quote) : M unit :=
  s <- get_session ;;
  put_session (mkSession (ss_history s) (Some d)).

(** [if "history" not in st.session_state: st.session_state["history"] =
    pd.DataFrame(columns=[...])] *)
Definition ensure_history : M unit :=
  s <- get_session ;;
  match ss_history s with
  | Some _ => ret tt
  | None => set_history []
  end.

Definition ensure_last_live_data : M unit :=
  s <- get_session ;;
  match ss_last_live_data s with
  | Some _ => ret tt
  | None => set_last_live_data []
  end.

(** [requests.get(url, params=params, timeout=timeout)]: the request is
    recorded, then the call returns a response or raises. *)
Definition requests_get (env : run_env) (url : string) (params : dict string)
    (timeout : Z) : M response :=
  fun w =>
    let rq := mkRequest url params timeout in
    let w' := mkWorld (session w) (widgets w) (requests w ++ [rq]) in
    match http_reply env rq with
    | GetRaises e => (Raise e, w')
    | GetReturns r => (Ok r, w')
    end.

(** [response.raise_for_status()]: an [HTTPError], which is a
    [RequestException], for a status from 400 to 599 and nothing for any
    other status. *)
Definition raise_for_status (r : response) : result unit :=
  if (400 <=? status_code r) && (status_code r <? 600)
  then Raise (RequestException (http_error_text r))
  else Ok tt.

(** [response.json()] *)
Definition response_json (r : response) : result pyval :=
  match json_body r with
  | JsonValue raw => Ok raw
  | JsonRaises e => Raise e
  end.

(** [try: body except requests.exceptions.RequestException as e: handler]:
    any other exception passes through. *)
Definition try_except_RequestException {A : Type} (body : M A)
    (handler : string -> M A) : M A :=
  fun w =>
    match body w with
    | (Raise (RequestException e), w') => handler e w'
    | out => out
    end.

(** ** Fetching and cleaning (app.py, fetch_live_prices) *)

Section Fetch.

Context `{RT : Runtime}.

(** [float(v)] *)
Definition py_float (v : pyval) : result float :=
  match v with
  | PFloat f => Ok f
  | PInt z => float_of_int z
  | PBool b => Ok (of_bool b)
  | PStr s => float_of_str s
  | PNone | PList _ | PDict _ => Raise TypeError
  end.

Definition change_key : string := FIAT_CURRENCY ++ "_24h_change".

(** The cleaning loop over [raw.items()], [cleaned] being the dict built
    so far. *)
Fixpoint clean_loop (items : list (string * pyval)) (cleaned : dict quote)
    : result (dict quote) :=
  match items with
  | [] => Ok cleaned
  | (coin_id, info) :: rest =>
      let? price := py_get info FIAT_CURRENCY PNone in
      let? change := py_get info change_key (PFloat zero) in
      match price with
      | PNone => clean_loop rest cleaned
      | _ =>
          let? p := py_float price in
          let? c := py_float change in
          clean_loop rest (dict_set cleaned coin_id (mkQuote p c))
      end
  end.

Definition clean (raw : pyval) : result (dict quote) :=
  let? items := py_items raw in
  clean_loop items [].

Definition fetch_live_prices (env : run_env) (selected_coin_ids : list string)
    : M (dict quote) :=
  if negb (truthy selected_coin_ids) then ret []
  else
    let params :=
      [ ("ids", String.concat "," selected_coin_ids);
        ("vs_currencies", FIAT_CURRENCY);
        ("include_24hr_change", "true") ] in
    attempt <-
      try_except_RequestException
        (response <- requests_get env API_URL params 10 ;;
         lift (raise_for_status response) ;;
         raw <- lift (response_json response) ;;
         ret (Some raw))
        (fun e =>
           emit (StError ("❌ Error calling CoinGecko API: " ++ e)) ;;
           ret None) ;;
    match attempt with
    | None => ret []
    | Some raw => lift (clean raw)
    end.

End Fetch.

(** ** History (app.py, update_history) *)

(** The loop over [live_data.items()], [new_rows] being the list built so
    far. *)
Fixpoint history_loop (now : Z) (items : list (string * quote))
    (new_rows : list Observation) : list Observation :=
  match items with
  | [] => new_rows
  | (coin_id, info) :: rest =>
      let display_name := dict_get_default id_to_display coin_id coin_id in
      let risk := classify_risk (q_change_24h info) in
      history_loop now rest
        (new_rows ++
           [ mkObservation now display_name coin_id (q_price info)
               (q_change_24h info) risk ])
  end.

Definition update_history (env : run_env) (live_data : dict quote) : M unit :=
  ensure_history ;;
  let now := utcnow env in
  let new_rows := history_loop now live_data [] in
  if truthy new_rows then
    h <- get_history ;;
    set_history (h ++ new_rows)
  else ret tt.

(** ** Snapshot table (app.py, get_latest_snapshot_df) *)

Section Snapshot.

Context `{RT : Runtime}.

Fixpoint snapshot_loop (items : list (string * quote))
    (rows : list snapshot_row) : list snapshot_row :=
  match items with
  | [] => rows
  | (coin_id, info) :: rest =>
      let display_name := dict_get_default id_to_display coin_id coin_id in
      snapshot_loop rest
        (rows ++
           [ mkSnapshotRow display_name
               (round_ndigits (q_price info) 4)
               (round_ndigits (q_change_24h info) 2)
               (classify_risk (q_change_24h info)) ])
  end.

Definition get_latest_snapshot_df (live_data : dict quote) : list snapshot_row :=
  let rows := snapshot_loop live_data [] in
  if negb (truthy rows) then [] else rows.

End Snapshot.

(** ** pandas operations used by the chart (app.py, main) *)

(** Sorted list of the distinct elements of a list. *)
Section SortUniq.

Context {A : Type} (cmp : A -> A -> comparison).

Fixpoint insert_uniq (x : A) (l : list A) : list A :=
  match l with
  | [] => [x]
  | y :: rest =>
      match cmp x y with
      | Lt => x :: l
      | Eq => l
      | Gt => y :: insert_uniq x rest
      end
  end.

Definition sort_uniq (l : list A) : list A := fold_right insert_uniq [] l.

End SortUniq.

(** [df[df["coin_name"].isin(names)]] *)
Definition isin (names : list string) (name : string) : bool :=
  existsb (String.eqb name) names.

Definition filter_isin (history_df : list Observation) (names : list string)
    : list Observation :=
  filter (fun r => isin names (coin_name r)) history_df.

(** Rows of one (index, column) group, in frame order. *)
Definition in_group (t : Z) (c : string) (r : Observation) : bool :=
  Z.eqb (timestamp r) t && String.eqb (coin_name r) c.

(** [aggfunc="last"]: the last value of the group that is not NA, NaN
    when there is none. *)
Definition agg_last (values : list float) : float :=
  last (filter notna values) NaN.

(** [df.pivot_table(index="timestamp", columns="coin_name", values="price",
    aggfunc="last")] with pandas' defaults: groups are sorted, NA prices
    are skipped by the aggregation, and index labels and columns left
    without any value are dropped. *)
Definition pivot_table_last (df : list Observation) : pivot_frame :=
  let valued := filter (fun r => notna (price r)) df in
  let index := sort_uniq Z.compare (map timestamp valued) in
  let columns := sort_uniq String_as_OT.compare (map coin_name valued) in
  mkPivot columns
    (map (fun t =>
            (t, map (fun c => agg_last (map price (filter (in_group t c) df)))
                  columns))
       index).

(** [.sort_index()]: rows in ascending index order (stable insertion). *)
Fixpoint insert_row (row : Z * list float) (rows : list (Z * list float))
    : list (Z * list float) :=
  match rows with
  | [] => [row]
  | r :: rest =>
      if Z.leb (fst row) (fst r) then row :: rows
      else r :: insert_row row rest
  end.

Definition sort_index (p : pivot_frame) : pivot_frame :=
  mkPivot (pv_columns p) (fold_right insert_row [] (pv_rows p)).

(** Reading a cell of a pivoted frame by its labels. *)
Definition pivot_row (p : pivot_frame) (t : Z) : option (list float) :=
  option_map snd (find (fun r => Z.eqb (fst r) t) (pv_rows p)).

Definition pivot_cell (p : pivot_frame) (t : Z) (c : string) : option float :=
  match pivot_row p t with
  | Some cells => dict_get (combine (pv_columns p) cells) c
  | None => None
  end.

(** ** The script (app.py, main) *)

Section Main.

Context `{RT : Runtime}.

(** [[COINS[name] for name in selected_coins_display]] *)
Fixpoint lookup_ids (names : list string) : result (list string) :=
  match names with
  | [] => Ok []
  | name :: rest =>
      match dict_get COINS name with
      | Some id => let? ids := lookup_ids rest in Ok (id :: ids)
      | None => Raise (KeyError name)
      end
  end.

(** Body of [if st.sidebar.button(...)]; the pause of [time.sleep(0.3)]
    has no counterpart here. *)
Definition on_fetch_click (env : run_env) (selected_ids : list string) : M unit :=
  live_data <- fetch_live_prices env selected_ids ;;
  if truthy live_data then
    update_history env live_data ;;
    set_last_live_data live_data ;;
    emit (StSuccess "✅ Data refreshed successfully!")
  else ret tt.

(** The metric cards, one per snapshot row. *)
Fixpoint render_snapshot (rows : list snapshot_row) : M unit :=
  match rows with
  | [] => ret tt
  | row :: rest =>
      emit (StMarkdown ("### " ++ Coin row)) ;;
      emit (StMetric "Price (USD)" (Price_USD row)
              (float_str (Change_24h_pct row) ++ "%")) ;;
      (let risk := Risk_Level row in
       if String.eqb risk "HIGH" then emit (StError ("Risk: " ++ risk))
       else if String.eqb risk "MEDIUM" then emit (StWarning ("Risk: " ++ risk))
       else emit (StSuccess ("Risk: " ++ risk))) ;;
      render_snapshot rest
  end.

(** The chart frame drawn for a non-empty selection of the history. *)
Definition chart_df (filtered : list Observation) : pivot_frame :=
  sort_index (pivot_table_last filtered).

(** Everything below the button: the three views of the session. *)
Definition render (env : run_env) : M unit :=
  live_data <- get_last_live_data ;;
  history_df <- get_history ;;
  (if negb (truthy live_data) then
     emit (StWarning
             "No live data yet. Select coins and click **Fetch latest data**.")
   else render_snapshot (get_latest_snapshot_df live_data)) ;;
  (if negb (truthy history_df) then
     emit (StInfo "History will appear after fetching data multiple times.")
   else
     let filtered := filter_isin history_df (selected_coins_display env) in
     if negb (truthy filtered) then
       emit (StInfo "No history found for selected coins.")
     else emit (StLineChart (chart_df filtered))) ;;
  (if negb (truthy history_df) then emit (StInfo "No data collected yet.")
   else
     emit (StDataframe (firstn 100 (sort_values_timestamp_desc history_df)))).

Definition main (env : run_env) : M unit :=
  selected_ids <- lift (lookup_ids (selected_coins_display env)) ;;
  (if clicked env then on_fetch_click env selected_ids else ret tt) ;;
  ensure_last_live_data ;;
  ensure_history ;;
  render env.

(** A browser session: the script is re-run once per interaction, on the
    world the previous run left (an uncaught exception ends that run
    only). *)
Definition initial_world : world := mkWorld (mkSession None None) [] [].

Definition run (w : world) (env : run_env) : world := snd (main env w).

Definition run_all (envs : list run_env) : world :=
  fold_left run envs initial_world.

End Main.

(** The history log of a session: empty until the frame is created. *)
Definition history_of (s : session_state) : list Observation :=
  match ss_history s with
  | Some h => h
  | None => []
  end.

(** The last fetch kept by a session. *)
Definition last_live_data_of (s : session_state) : dict quote :=
  match ss_last_live_data s with
  | Some d => d
  | None => []
  end.

(** The observation [update_history] builds for one fetched entry. *)
Definition observation_of (now : Z) (item : string * quote) : Observation :=
  mkObservation now
    (dict_get_default id_to_display (fst item) (fst item))
    (fst item) (q_price (snd item)) (q_change_24h (snd item))
    (classify_risk (q_change_24h (snd item))).

(** The snapshot row [get_latest_snapshot_df] builds for one entry. *)
Definition snapshot_row_of `{RT : Runtime} (item : string * quote) : snapshot_row :=
  mkSnapshotRow
    (dict_get_default id_to_display (fst item) (fst item))
    (round_ndigits (q_price (snd item)) 4)
    (round_ndigits (q_change_24h (snd item)) 2)
    (classify_risk (q_change_24h (snd item))).

(** Successive calls of [update_history], one per fetch result. *)
Definition append_all (fetches : list (run_env * dict quote)) (w : world) : world :=
  fold_left (fun w f => snd (update_history (fst f) (snd f) w)) fetches w.

(** The label of a row agrees with its own 24h change. *)
Definition risk_consistent (r : Observation) : Prop :=
  risk r = classify_risk (change_24h r).

(** A runtime for closed examples: integers convert exactly, no string
    parses, rounding and sorting are the identity. *)
Definition example_runtime : Runtime := {|
  float_of_int := fun z => Ok (Finite (inject_Z z));
  float_of_str := fun _ => Raise ValueError;
  round_ndigits := fun x _ => x;
  float_str := fun _ => EmptyString;
  sort_values_timestamp_desc := fun rows => rows
|}.

(** A computation moves every world to an [R]-related one, whether it
    returns or raises. *)
Definition steps (R : world -> world -> Prop) {A : Type} (m : M A) : Prop :=
  forall w, R w (snd (m w)).

(** Only the widget trace may differ. *)
Definition same_state (w w' : world) : Prop :=
  session w = session w' /\ requests w = requests w'.

(** The history invariant is carried over. *)
Definition keeps_risk (w w' : world) : Prop :=
  Forall risk_consistent (history_of (session w)) ->
  Forall risk_consistent (history_of (session w')).

(** The request [fetch_live_prices] sends for a list of ids. *)
Definition price_request (ids : list string) : http_request :=
  mkRequest API_URL
    [ ("ids", String.concat "," ids);
      ("vs_currencies", FIAT_CURRENCY);
      ("include_24hr_change", "true") ]
    10.

(** How the [try] block of [fetch_live_prices] ends. *)
Inductive try_outcome : Type :=
| HttpFails (e : string)
| HttpJson (raw : pyval)
| HttpEscapes (e : exn).

Definition outcome_of_exn (e : exn) : try_outcome :=
  match e with
  | RequestException msg => HttpFails msg
  | _ => HttpEscapes e
  end.

(** The end of the [try] block for an outcome of [requests.get]: the
    handler runs with the text of a [RequestException] raised by the call,
    by [raise_for_status] or by [json]; the body is decoded; or another
    exception leaves the block. *)
Definition try_outcome_of (o : http_outcome) : try_outcome :=
  match o with
  | GetRaises e => outcome_of_exn e
  | GetReturns r =>
      match raise_for_status r with
      | Raise e => outcome_of_exn e
      | Ok _ =>
          match response_json r with
          | Ok raw => HttpJson raw
          | Raise e => outcome_of_exn e
          end
      end
  end.

(** The API call fails with message [e]: a network error or timeout
    raised by the call, a status from 400 to 599, or a body whose decoding
    raises a [RequestException]. *)
Definition api_call_fails (o : http_outcome) (e : string) : Prop :=
  o = GetRaises (RequestException e)
  \/ (exists r,
         o = GetReturns r
         /\ 400 <= status_code r < 600
         /\ e = http_error_text r)
  \/ (exists r,
         o = GetReturns r
         /\ ~ (400 <= status_code r < 600)
         /\ json_body r = JsonRaises (RequestException e)).

(** The log and the last fetch read the same. *)
Definition same_log (w w' : world) : Prop :=
  history_of (session w) = history_of (session w')
  /\ last_live_data_of (session w) = last_live_data_of (session w').

(** No request was added. *)
Definition same_requests (w w' : world) : Prop := requests w = requests w'.

(** What the cleaning loop reads from one entry of the reply. *)
Definition price_field (info : dict pyval) : pyval :=
  dict_get_default info FIAT_CURRENCY PNone.

Definition change_field `{RT : Runtime} (info : dict pyval) : pyval :=
  dict_get_default info change_key (PFloat zero).

(** An entry of the expected shape: an object whose price is absent or
    null, or whose price and change both convert with [float]. *)
Definition entry_convertible `{RT : Runtime} (item : string * pyval) : bool :=
  match snd item with
  | PDict info =>
      match price_field info with
      | PNone => true
      | p =>
          match py_float p, py_float (change_field info) with
          | Ok _, Ok _ => true
          | _, _ => false
          end
      end
  | _ => false
  end.

(** A reply with a full entry, an entry without change, an entry whose
    price is null and an entry without price. *)
Definition example_reply : list (string * pyval) :=
  [ ("bitcoin", PDict [ ("usd", PFloat (Finite (650001234 # 10000)));
                        ("usd_24h_change", PFloat (Finite 11)) ]);
    ("ethereum", PDict [ ("usd", PInt 3000) ]);
    ("solana", PDict [ ("usd", PNone); ("usd_24h_change", PFloat (Finite 1)) ]);
    ("tether", PDict [ ("usd_24h_change", PFloat (Finite 0)) ]) ].

(** One click on a session whose reply is [example_reply]. *)
Definition example_env : run_env :=
  mkEnv true ["Bitcoin (BTC)"; "Ethereum (ETH)"]
    (fun _ => GetReturns (mkResponse 200 "" (JsonValue (PDict example_reply))))
    1700000000.

(** ** Pure counterparts used to state what a run shows *)

(** The display name both loops give an id. *)
Definition display_name (coin_id : string) : string :=
  dict_get_default id_to_display coin_id coin_id.

(** The badge [main] shows under a card for a risk label. *)
Definition risk_badge (risk : string) : widget :=
  if String.eqb risk "HIGH" then StError ("Risk: " ++ risk)
  else if String.eqb risk "MEDIUM" then StWarning ("Risk: " ++ risk)
  else StSuccess ("Risk: " ++ risk).

(** The three widgets of one metric card. *)
Definition card_widgets `{RT : Runtime} (row : snapshot_row) : list widget :=
  [ StMarkdown ("### " ++ Coin row);
    StMetric "Price (USD)" (Price_USD row) (float_str (Change_24h_pct row) ++ "%");
    risk_badge (Risk_Level row) ].

(** What the three views show for a last fetch and a history. *)
Definition view_widgets `{RT : Runtime} (selected : list string)
    (live_data : dict quote) (history_df : list Observation) : list widget :=
  ((if negb (truthy live_data) then
      [ StWarning "No live data yet. Select coins and click **Fetch latest data**." ]
    else flat_map card_widgets (get_latest_snapshot_df live_data))
   ++ (if negb (truthy history_df) then
         [ StInfo "History will appear after fetching data multiple times." ]
       else
         let filtered := filter_isin history_df selected in
         if negb (truthy filtered) then
           [ StInfo "No history found for selected coins." ]
         else [ StLineChart (chart_df filtered) ])
   ++ (if negb (truthy history_df) then [ StInfo "No data collected yet." ]
       else [ StDataframe (firstn 100 (sort_values_timestamp_desc history_df)) ]))%list.

(** An entry of the reply that the cleaning keeps when it returns. *)
Definition has_price (item : string * pyval) : bool :=
  match snd item with
  | PDict info =>
      match price_field info with
      | PNone => false
      | _ => true
      end
  | _ => false
  end.

(** The later log starts with the earlier one. *)
Definition extends_log (w w' : world) : Prop :=
  exists extra, history_of (session w') = (history_of (session w) ++ extra)%list.





(** The order of the three labels. *)
Definition risk_rank (label : string) : nat :=
  if String.eqb label "HIGH" then 2
  else if String.eqb label "MEDIUM" then 1
  else 0.

(** The log ends with the rows of the last fetch. *)
Definition log_ends_with_last_fetch (w : world) : Prop :=
  exists earlier now,
    history_of (session w)
    = (earlier ++ map (observation_of now) (last_live_data_of (session w)))%list.

(** The session after one successful refresh. *)
Definition example_logged_world : world :=
  run (RT := example_runtime) initial_world example_env.

(** A click answered by a 503 page, whatever its body. *)
Definition example_down_env : run_env :=
  mkEnv true ["Bitcoin (BTC)"]
    (fun _ =>
       GetReturns
         (mkResponse 503 "503 Server Error: Service Unavailable"
            (JsonValue (PDict example_reply))))
    1700000060.

(** A click answered with status 300 and a JSON body. *)
Definition example_redirect_env : run_env :=
  mkEnv true ["Bitcoin (BTC)"]
    (fun _ => GetReturns (mkResponse 300 "" (JsonValue (PDict example_reply))))
    1700000060.

(** A click answered by a body nested too deeply to decode. *)
Definition example_deep_env : run_env :=
  mkEnv true ["Bitcoin (BTC)"]
    (fun _ => GetReturns (mkResponse 200 "" (JsonRaises RecursionError)))
    1700000060.

(** Two refreshes whose replies carry NaN prices: at clock reading 1 a
    price of 2.0 and then a NaN price under the same display name, at
    clock reading 2 a NaN price only. *)
Definition example_nan_envs : list run_env :=
  [ mkEnv true ["Bitcoin (BTC)"]
      (fun _ =>
         GetReturns
           (mkResponse 200 ""
              (JsonValue
                 (PDict [ ("bitcoin", PDict [ ("usd", PFloat (Finite 2)) ]);
                          ("Bitcoin (BTC)", PDict [ ("usd", PFloat NaN) ]) ]))))
      1;
    mkEnv true ["Bitcoin (BTC)"]
      (fun _ =>
         GetReturns
           (mkResponse 200 ""
              (JsonValue (PDict [ ("bitcoin", PDict [ ("usd", PFloat NaN) ]) ]))))
      2 ].

(** * Properties *)

Local Open Scope list_scope.

Section FloatFacts.

Lemma ge_int_abs_ge c n : ge_int (fabs c) n = true <-> abs_ge c n.
Proof.
  destruct c; simpl; try tauto.
  - apply Qle_bool_iff.
  - split; [discriminate | tauto].
Qed.

Lemma ge_int_false_abs_lt c n :
  ge_int (fabs c) n = false <-> abs_lt c n \/ c = NaN.
Proof.
  destruct c; simpl.
  - split.
    + intros H. left. apply Qnot_le_lt. intros Hle.
      apply Qle_bool_iff in Hle. congruence.
    + intros [H | H]; [| discriminate].
      destruct (Qle_bool (inject_Z n) (Qabs q)) eqn:E; [| reflexivity].
      apply Qle_bool_iff in E. exfalso. apply (Qlt_not_le _ _ H E).
  - split; [discriminate | intros [[] | H]; discriminate].
  - split; [discriminate | intros [[] | H]; discriminate].
  - split; [right; reflexivity | reflexivity].
Qed.

Lemma abs_ge_mono c : abs_ge c 10 -> abs_ge c 5.
Proof.
  destruct c; simpl; trivial.
  intros H. eapply Qle_trans; [| exact H].
  unfold Qle, inject_Z; simpl. lia.
Qed.

Lemma abs_lt_mono c : abs_lt c 5 -> abs_lt c 10.
Proof.
  destruct c; simpl; trivial.
  intros H. eapply Qlt_trans; [exact H |].
  unfold Qlt, inject_Z; simpl. lia.
Qed.

Lemma abs_lt_not_ge c n : abs_lt c n -> ~ abs_ge c n.
Proof.
  destruct c; simpl; try tauto.
  intros H1 H2. exact (Qlt_not_le _ _ H1 H2).
Qed.

End FloatFacts.

(** C1, as worded, fails at NaN: [classify_risk] falls through both
    comparisons and answers LOW although [|NaN| < 5] does not hold. *)
Lemma classify_risk_nan_counterexample :
  classify_risk NaN = "LOW"
  /\ ~ abs_lt NaN 5
  /\ ~ (classify_risk NaN = "LOW" <-> abs_lt NaN 5).
Proof.
  split; [reflexivity |]. split.
  - intros H. exact H.
  - intros [H _]. exact (H eq_refl).
Qed.

(** C1 (amended): HIGH iff [|c| >= 10]; MEDIUM iff [5 <= |c| < 10]; LOW iff
    [|c| < 5] or [c] is NaN; 5.0 gives MEDIUM and 10.0 gives HIGH; the
    function is total (one of the three labels on every float).  It is a
    function of its argument alone, outside the monad [M], hence
    deterministic and free of effects. *)
Theorem classify_risk_spec :
  (forall c,
      (classify_risk c = "HIGH" <-> abs_ge c 10)
      /\ (classify_risk c = "MEDIUM" <-> abs_ge c 5 /\ abs_lt c 10)
      /\ (classify_risk c = "LOW" <-> abs_lt c 5 \/ c = NaN)
      /\ (classify_risk c = "HIGH" \/ classify_risk c = "MEDIUM"
          \/ classify_risk c = "LOW"))
  /\ classify_risk (Finite 5) = "MEDIUM"
  /\ classify_risk (Finite 10) = "HIGH".
Proof.
  split; [| split; reflexivity].
  intros c. unfold classify_risk.
  destruct (ge_int (fabs c) 10) eqn:E10.
  - pose proof (proj1 (ge_int_abs_ge c 10) E10) as G10.
    repeat split; auto; try discriminate.
    + intros [_ L]. exfalso. exact (abs_lt_not_ge _ _ L G10).
    + intros [L | ->]; [| discriminate E10].
      exfalso. exact (abs_lt_not_ge _ _ (abs_lt_mono _ L) G10).
  - pose proof (proj1 (ge_int_false_abs_lt c 10) E10) as L10.
    assert (N10 : ~ abs_ge c 10).
    { intros G. apply ge_int_abs_ge in G. congruence. }
    destruct (ge_int (fabs c) 5) eqn:E5.
    + pose proof (proj1 (ge_int_abs_ge c 5) E5) as G5.
      repeat split; auto; try discriminate; try tauto.
      * destruct L10 as [L | ->]; [exact L | discriminate E5].
      * intros [L | ->]; [| discriminate E5].
        exfalso. exact (abs_lt_not_ge _ _ L G5).
    + pose proof (proj1 (ge_int_false_abs_lt c 5) E5) as L5.
      repeat split; auto; try discriminate; try tauto.
      intros [G _]. apply ge_int_abs_ge in G. congruence.
Qed.

(** ** The two loops as maps *)

Lemma history_loop_map now items acc :
  history_loop now items acc = acc ++ map (observation_of now) items.
Proof.
  revert acc. induction items as [| [coin_id info] rest IH]; intros acc; simpl.
  - now rewrite app_nil_r.
  - rewrite IH, <- app_assoc. reflexivity.
Qed.

(** One call of [update_history], as a single equation on the world. *)
Lemma update_history_run env live_data w :
  update_history env live_data w =
  (Ok tt,
   mkWorld
     (mkSession
        (Some (history_of (session w)
                 ++ map (observation_of (utcnow env)) live_data))
        (ss_last_live_data (session w)))
     (widgets w) (requests w)).
Proof.
  destruct w as [[h lld] ws rq].
  unfold update_history. rewrite history_loop_map. simpl app.
  destruct (map (observation_of (utcnow env)) live_data) as [| r rs] eqn:E;
    destruct h as [h |]; cbn; rewrite ?app_nil_r; reflexivity.
Qed.

Lemma snapshot_loop_map `{RT : Runtime} items acc :
  snapshot_loop items acc = acc ++ map snapshot_row_of items.
Proof.
  revert acc. induction items as [| [coin_id info] rest IH]; intros acc; simpl.
  - now rewrite app_nil_r.
  - rewrite IH, <- app_assoc. reflexivity.
Qed.

Lemma get_latest_snapshot_df_map `{RT : Runtime} live_data :
  get_latest_snapshot_df live_data = map snapshot_row_of live_data.
Proof.
  unfold get_latest_snapshot_df. rewrite snapshot_loop_map. simpl.
  destruct (map snapshot_row_of live_data); reflexivity.
Qed.

Lemma update_history_history env live_data w :
  history_of (session (snd (update_history env live_data w)))
  = history_of (session w) ++ map (observation_of (utcnow env)) live_data.
Proof. rewrite update_history_run. reflexivity. Qed.

Lemma append_all_history fetches w :
  history_of (session (append_all fetches w))
  = history_of (session w)
      ++ flat_map (fun f => map (observation_of (utcnow (fst f))) (snd f)) fetches.
Proof.
  unfold append_all. revert w.
  induction fetches as [| f rest IH]; intros w; simpl.
  - now rewrite app_nil_r.
  - rewrite IH, update_history_history, <- app_assoc. reflexivity.
Qed.

(** C3: one call appends exactly the rows of the fetched entries after the
    existing log, which stays as it was; appending a sequence of fetch
    results to the empty history yields one row per fetched entry, in the
    order received, each carrying the entry's id, price and change. *)
Theorem update_history_append_only :
  (forall env live_data w,
      fst (update_history env live_data w) = Ok tt
      /\ history_of (session (snd (update_history env live_data w)))
         = history_of (session w) ++ map (observation_of (utcnow env)) live_data
      /\ List.length (map (observation_of (utcnow env)) live_data) = List.length live_data)
  /\ (forall fetches,
         let log := history_of (session (append_all fetches initial_world)) in
         List.length log = List.length (flat_map snd fetches)
         /\ map (fun r => (coin_id r, mkQuote (price r) (change_24h r))) log
            = map (fun kv => (fst kv, mkQuote (q_price (snd kv)) (q_change_24h (snd kv))))
                (flat_map snd fetches)).
Proof.
  split.
  - intros env live_data w. rewrite update_history_run. simpl.
    repeat split. apply length_map.
  - intros fetches log. subst log. rewrite append_all_history. simpl.
    induction fetches as [| f rest [IHl IHm]]; simpl; [split; reflexivity |].
    rewrite !length_app, !map_app, length_map, IHl, IHm.
    split; [reflexivity |]. f_equal.
    rewrite map_map. reflexivity.
Qed.

(** C9: with an empty fetch result the log, the last fetch, the widgets and
    the request trace are what they were; when the history frame already
    exists the whole world is unchanged. *)
Theorem update_history_empty_noop :
  forall env,
    (forall w,
        let w' := snd (update_history env [] w) in
        fst (update_history env [] w) = Ok tt
        /\ history_of (session w') = history_of (session w)
        /\ ss_last_live_data (session w') = ss_last_live_data (session w)
        /\ widgets w' = widgets w
        /\ requests w' = requests w)
    /\ (forall h lld ws rq,
           let w := mkWorld (mkSession (Some h) lld) ws rq in
           update_history env [] w = (Ok tt, w)).
Proof.
  intros env. split.
  - intros w w'. subst w'. rewrite update_history_run. simpl.
    rewrite app_nil_r. repeat split.
  - intros h lld ws rq w. subst w. reflexivity.
Qed.

(** ** Relational reasoning on the monad *)

Section Steps.

Variable R : world -> world -> Prop.
Hypothesis R_refl : forall w, R w w.
Hypothesis R_trans : forall a b c, R a b -> R b c -> R a c.

Lemma steps_ret {A} (a : A) : steps R (ret a).
Proof. intros w. apply R_refl. Qed.

Lemma steps_lift {A} (r : result A) : steps R (lift r).
Proof. intros w. apply R_refl. Qed.

Lemma steps_get_session : steps R get_session.
Proof. intros w. apply R_refl. Qed.

Lemma steps_bind {A B} (m : M A) (k : A -> M B) :
  steps R m -> (forall a, steps R (k a)) -> steps R (bind m k).
Proof.
  intros Hm Hk w. unfold bind. specialize (Hm w).
  destruct (m w) as [[a | e] w']; simpl in *.
  - eapply R_trans; [exact Hm | apply Hk].
  - exact Hm.
Qed.

Lemma steps_if {A} (b : bool) (m1 m2 : M A) :
  steps R m1 -> steps R m2 -> steps R (if b then m1 else m2).
Proof. destruct b; auto. Qed.

(** What [R] must allow for the primitive effects. *)
Hypothesis R_emit :
  forall w x, R w (mkWorld (session w) (widgets w ++ [x]) (requests w)).

Lemma steps_emit x : steps R (emit x).
Proof. intros w. apply R_emit. Qed.

Lemma steps_render_snapshot `{RT : Runtime} rows : steps R (render_snapshot rows).
Proof.
  induction rows as [| row rest IH]; simpl.
  - apply steps_ret.
  - repeat (apply steps_bind; [| intros _]); try apply steps_emit; auto.
    repeat apply steps_if; apply steps_emit.
Qed.

Lemma steps_get_history : steps R get_history.
Proof.
  apply steps_bind; [apply steps_get_session |].
  intros s. destruct (ss_history s); [apply steps_ret | apply steps_lift].
Qed.

Lemma steps_get_last_live_data : steps R get_last_live_data.
Proof.
  apply steps_bind; [apply steps_get_session |].
  intros s. destruct (ss_last_live_data s); [apply steps_ret | apply steps_lift].
Qed.

Lemma steps_render `{RT : Runtime} env : steps R (render env).
Proof.
  unfold render.
  apply steps_bind; [apply steps_get_last_live_data | intros live_data].
  apply steps_bind; [apply steps_get_history | intros history_df].
  repeat (apply steps_bind; [| intros _]);
    repeat apply steps_if;
    first [apply steps_emit | apply steps_render_snapshot].
Qed.

Hypothesis R_request :
  forall w rq, R w (mkWorld (session w) (widgets w) (requests w ++ [rq])).

Lemma steps_try_except {A} (body : M A) (handler : string -> M A) :
  steps R body -> (forall e, steps R (handler e)) ->
  steps R (try_except_RequestException body handler).
Proof.
  intros Hb Hh w. unfold try_except_RequestException. specialize (Hb w).
  destruct (body w) as [[a | e] w']; simpl in *; trivial.
  destruct e; simpl; trivial.
  eapply R_trans; [exact Hb | apply Hh].
Qed.

Lemma steps_requests_get env url params timeout :
  steps R (requests_get env url params timeout).
Proof.
  intros w. unfold requests_get.
  destruct (http_reply env (mkRequest url params timeout)); apply R_request.
Qed.

Lemma steps_fetch_live_prices `{RT : Runtime} env ids :
  steps R (fetch_live_prices env ids).
Proof.
  unfold fetch_live_prices. apply steps_if; [apply steps_ret |].
  apply steps_bind.
  - apply steps_try_except.
    + apply steps_bind; [apply steps_requests_get | intros response].
      apply steps_bind; [apply steps_lift | intros _].
      apply steps_bind; [apply steps_lift | intros raw; apply steps_ret].
    + intros e. apply steps_bind; [apply steps_emit | intros _; apply steps_ret].
  - intros [raw |]; [apply steps_lift | apply steps_ret].
Qed.

End Steps.

Lemma same_state_refl w : same_state w w.
Proof. split; reflexivity. Qed.

Lemma same_state_trans a b c : same_state a b -> same_state b c -> same_state a c.
Proof. intros [H1 H2] [H3 H4]. split; congruence. Qed.

(** X1: the views are projections: rendering reads the session and only
    emits widgets, so the session and the request trace are what they
    were. *)
Theorem render_same_state `{RT : Runtime} env w :
  session (snd (render env w)) = session w
  /\ requests (snd (render env w)) = requests w.
Proof.
  assert (H : steps same_state (render env)).
  { apply steps_render.
    - apply same_state_refl.
    - apply same_state_trans.
    - intros w0 x. split; reflexivity. }
  destruct (H w) as [Hs Hr]. split; congruence.
Qed.

(** ** Session bookkeeping *)

Lemma ensure_history_run w :
  ensure_history w =
  (Ok tt,
   mkWorld (mkSession (Some (history_of (session w))) (ss_last_live_data (session w)))
     (widgets w) (requests w)).
Proof. destruct w as [[[h |] lld] ws rq]; reflexivity. Qed.

Lemma ensure_last_live_data_run w :
  ensure_last_live_data w =
  (Ok tt,
   mkWorld (mkSession (ss_history (session w)) (Some (last_live_data_of (session w))))
     (widgets w) (requests w)).
Proof. destruct w as [[h [lld |]] ws rq]; reflexivity. Qed.

Lemma set_last_live_data_run d w :
  set_last_live_data d w =
  (Ok tt, mkWorld (mkSession (ss_history (session w)) (Some d)) (widgets w) (requests w)).
Proof. reflexivity. Qed.

Lemma same_log_refl w : same_log w w.
Proof. split; reflexivity. Qed.

Lemma same_log_trans a b c : same_log a b -> same_log b c -> same_log a c.
Proof. intros [H1 H2] [H3 H4]. split; congruence. Qed.

(** The tail of [main] after the button block leaves the log and the last
    fetch as they read before. *)
Lemma main_tail_same_log `{RT : Runtime} env :
  steps same_log (ensure_last_live_data ;; ensure_history ;; render env).
Proof.
  apply steps_bind; [apply same_log_trans | |].
  - intros w. rewrite ensure_last_live_data_run. split; reflexivity.
  - intros _. apply steps_bind; [apply same_log_trans | |].
    + intros w. rewrite ensure_history_run. split; reflexivity.
    + intros _. apply steps_render.
      * apply same_log_refl.
      * apply same_log_trans.
      * intros w x. split; reflexivity.
Qed.

Lemma main_tail_same_requests `{RT : Runtime} env :
  steps same_requests (ensure_last_live_data ;; ensure_history ;; render env).
Proof.
  assert (T : forall a b c, same_requests a b -> same_requests b c -> same_requests a c)
    by (unfold same_requests; congruence).
  apply steps_bind; [exact T | |].
  - intros w. rewrite ensure_last_live_data_run. reflexivity.
  - intros _. apply steps_bind; [exact T | |].
    + intros w. rewrite ensure_history_run. reflexivity.
    + intros _. apply steps_render; [reflexivity | exact T | reflexivity].
Qed.

(** ** Fetching *)

(** C7: with no id selected the fetch returns the empty mapping and
    leaves the world, request trace included, as it found it; a whole run
    of the script with an empty selection adds no request either, clicked
    or not. *)
Theorem fetch_empty_selection `{RT : Runtime} :
  (forall env w, fetch_live_prices env [] w = (Ok [], w))
  /\ (forall b reply now w,
         requests (snd (main (mkEnv b [] reply now) w)) = requests w).
Proof.
  split; [reflexivity |].
  intros b reply now w.
  pose proof (main_tail_same_requests (mkEnv b [] reply now) w) as H.
  unfold same_requests in H. rewrite H.
  destruct b; reflexivity.
Qed.

Lemma raise_for_status_Ok r :
  raise_for_status r = Ok tt <-> ~ (400 <= status_code r < 600).
Proof.
  unfold raise_for_status.
  destruct (Z.leb_spec 400 (status_code r)) as [Hlo | Hlo],
           (Z.ltb_spec (status_code r) 600) as [Hhi | Hhi];
    cbn; split; intros Hx;
    try discriminate; try reflexivity; try lia; exfalso; lia.
Qed.

Lemma raise_for_status_Raise r e :
  raise_for_status r = Raise e
  <-> 400 <= status_code r < 600 /\ e = RequestException (http_error_text r).
Proof.
  unfold raise_for_status.
  destruct (Z.leb_spec 400 (status_code r)) as [Hlo | Hlo],
           (Z.ltb_spec (status_code r) 600) as [Hhi | Hhi];
    cbn; split; intros Hx; try discriminate; try (exfalso; lia).
  - injection Hx as <-. split; [lia | reflexivity].
  - destruct Hx as [_ ->]. reflexivity.
Qed.

(** The three ends of the [try] block, cause by cause. *)
Lemma try_outcome_fails o e :
  try_outcome_of o = HttpFails e <-> api_call_fails o e.
Proof.
  unfold api_call_fails. destruct o as [e0 | r]; simpl.
  - split.
    + destruct e0; simpl; intros H; try discriminate.
      injection H as ->. left. reflexivity.
    + intros [H | [[r [H _]] | [r [H _]]]]; try discriminate.
      injection H as ->. reflexivity.
  - destruct (raise_for_status r) as [[] | e1] eqn:Es.
    + apply raise_for_status_Ok in Es. unfold response_json.
      destruct (json_body r) as [raw | e1] eqn:Ej; split.
      * discriminate.
      * intros [H | [[r' [H [Hst _]]] | [r' [H [_ Hj]]]]]; try discriminate;
          injection H as <-; [contradiction | congruence].
      * intros H. destruct e1; simpl in H; try discriminate. injection H as ->.
        right. right. exists r. repeat split; trivial.
      * intros [H | [[r' [H [Hst _]]] | [r' [H [_ Hj]]]]]; try discriminate;
          injection H as <-; [contradiction |].
        rewrite Ej in Hj. injection Hj as ->. reflexivity.
    + apply raise_for_status_Raise in Es. destruct Es as [Hst ->]. simpl. split.
      * intros H. injection H as <-. right. left. exists r. auto.
      * intros [H | [[r' [H [_ He]]] | [r' [H [Hn _]]]]]; try discriminate;
          injection H as <-; [subst; reflexivity | contradiction].
Qed.

Lemma try_outcome_json o raw :
  try_outcome_of o = HttpJson raw
  <-> exists r,
        o = GetReturns r
        /\ ~ (400 <= status_code r < 600)
        /\ json_body r = JsonValue raw.
Proof.
  destruct o as [e0 | r]; simpl.
  - split; [destruct e0; discriminate | intros [r [H _]]; discriminate].
  - destruct (raise_for_status r) as [[] | e1] eqn:Es.
    + apply raise_for_status_Ok in Es. unfold response_json.
      destruct (json_body r) as [raw0 | e1] eqn:Ej; split.
      * intros H. injection H as ->. exists r. auto.
      * intros [r' [H [_ Hj]]]. injection H as <-. rewrite Ej in Hj.
        injection Hj as ->. reflexivity.
      * destruct e1; discriminate.
      * intros [r' [H [_ Hj]]]. injection H as <-. congruence.
    + apply raise_for_status_Raise in Es. destruct Es as [Hst ->]. simpl. split.
      * discriminate.
      * intros [r' [H [Hn _]]]. injection H as <-. contradiction.
Qed.

Lemma try_outcome_escapes o e :
  try_outcome_of o = HttpEscapes e ->
  (forall msg, e <> RequestException msg)
  /\ (o = GetRaises e
      \/ exists r,
           o = GetReturns r
           /\ ~ (400 <= status_code r < 600)
           /\ json_body r = JsonRaises e).
Proof.
  destruct o as [e0 | r]; simpl.
  - destruct e0; simpl; intros H; try discriminate; injection H as <-;
      (split; [intros msg; discriminate | left; reflexivity]).
  - destruct (raise_for_status r) as [[] | e1] eqn:Es.
    + apply raise_for_status_Ok in Es. unfold response_json.
      destruct (json_body r) as [raw0 | e1] eqn:Ej; [discriminate |].
      destruct e1; simpl; intros H; try discriminate; injection H as <-;
        (split; [intros msg; discriminate | right; exists r; auto]).
    + apply raise_for_status_Raise in Es. destruct Es as [Hst ->]. simpl.
      discriminate.
Qed.

(** A fetch for a non-empty list of ids, as one equation: the request
    is recorded, then the end of the [try] block decides. *)
Lemma fetch_nonempty_run `{RT : Runtime} env id ids w :
  fetch_live_prices env (id :: ids) w =
  match try_outcome_of (http_reply env (price_request (id :: ids))) with
  | HttpFails e =>
      (Ok [],
       mkWorld (session w)
         (widgets w ++ [StError ("❌ Error calling CoinGecko API: " ++ e)%string])
         (requests w ++ [price_request (id :: ids)]))
  | HttpJson raw =>
      (clean raw,
       mkWorld (session w) (widgets w) (requests w ++ [price_request (id :: ids)]))
  | HttpEscapes e =>
      (Raise e,
       mkWorld (session w) (widgets w) (requests w ++ [price_request (id :: ids)]))
  end.
Proof.
  unfold fetch_live_prices.
  change (negb (truthy (id :: ids))) with false. cbv iota.
  unfold try_except_RequestException, bind, requests_get, lift, ret, emit,
    try_outcome_of, outcome_of_exn.
  fold (price_request (id :: ids)).
  destruct (http_reply env (price_request (id :: ids))) as [e | r].
  - destruct e; reflexivity.
  - destruct (raise_for_status r) as [[] | e].
    + destruct (response_json r) as [raw | e]; [reflexivity |].
      destruct e; reflexivity.
    + destruct e; reflexivity.
Qed.

Lemma fetch_failure_run `{RT : Runtime} env id ids e w :
  try_outcome_of (http_reply env (price_request (id :: ids))) = HttpFails e ->
  fetch_live_prices env (id :: ids) w =
  (Ok [],
   mkWorld (session w)
     (widgets w ++ [StError ("❌ Error calling CoinGecko API: " ++ e)%string])
     (requests w ++ [price_request (id :: ids)])).
Proof. intros Hfail. rewrite fetch_nonempty_run, Hfail. reflexivity. Qed.

(** ** The risk label of every logged observation *)

Lemma observation_risk_consistent now item : risk_consistent (observation_of now item).
Proof. reflexivity. Qed.

Lemma keeps_risk_refl w : keeps_risk w w.
Proof. intros H; exact H. Qed.

Lemma keeps_risk_trans a b c : keeps_risk a b -> keeps_risk b c -> keeps_risk a c.
Proof. unfold keeps_risk. auto. Qed.

Lemma update_history_keeps_risk env live_data :
  steps keeps_risk (update_history env live_data).
Proof.
  intros w Hw. rewrite update_history_history.
  apply Forall_app. split; [exact Hw |].
  apply Forall_forall. intros r Hr. apply in_map_iff in Hr.
  destruct Hr as [item [<- _]]. apply observation_risk_consistent.
Qed.

Lemma on_fetch_click_keeps_risk `{RT : Runtime} env ids :
  steps keeps_risk (on_fetch_click env ids).
Proof.
  unfold on_fetch_click.
  apply steps_bind; [apply keeps_risk_trans | |].
  - apply steps_fetch_live_prices;
      [apply keeps_risk_refl | apply keeps_risk_trans | |];
      intros w x H; exact H.
  - intros live_data. apply steps_if; [| apply steps_ret, keeps_risk_refl].
    apply steps_bind; [apply keeps_risk_trans | apply update_history_keeps_risk |].
    intros _. apply steps_bind; [apply keeps_risk_trans | |].
    + intros w H. rewrite set_last_live_data_run. exact H.
    + intros _ w H. exact H.
Qed.

Lemma main_keeps_risk `{RT : Runtime} env : steps keeps_risk (main env).
Proof.
  unfold main.
  apply steps_bind; [apply keeps_risk_trans | apply steps_lift, keeps_risk_refl |].
  intros selected_ids.
  apply steps_bind; [apply keeps_risk_trans | |].
  - apply steps_if;
      [apply on_fetch_click_keeps_risk | apply steps_ret, keeps_risk_refl].
  - intros _. apply steps_bind; [apply keeps_risk_trans | |].
    + intros w H. rewrite ensure_last_live_data_run. exact H.
    + intros _. apply steps_bind; [apply keeps_risk_trans | |].
      * intros w H. rewrite ensure_history_run. exact H.
      * intros _. apply steps_render;
          [apply keeps_risk_refl | apply keeps_risk_trans |].
        intros w x H. exact H.
Qed.

Lemma fold_run_keeps_risk `{RT : Runtime} envs w :
  Forall risk_consistent (history_of (session w)) ->
  Forall risk_consistent (history_of (session (fold_left run envs w))).
Proof.
  revert w. induction envs as [| env rest IH]; intros w Hw; simpl.
  - exact Hw.
  - apply IH. apply (main_keeps_risk env w Hw).
Qed.

(** C8: every observation built by [update_history] carries the label
    [classify_risk] gives its own change; a call of [update_history] keeps
    the property on the whole log; and it holds of every row of the log
    after any sequence of runs of the script from the empty session. *)
Theorem history_risk_invariant `{RT : Runtime} :
  (forall now coin_id info,
      risk (observation_of now (coin_id, info)) = classify_risk (q_change_24h info)
      /\ change_24h (observation_of now (coin_id, info)) = q_change_24h info)
  /\ (forall env live_data, steps keeps_risk (update_history env live_data))
  /\ (forall envs r,
         In r (history_of (session (run_all envs))) ->
         risk r = classify_risk (change_24h r)).
Proof.
  split; [intros; split; reflexivity |].
  split; [apply update_history_keeps_risk |].
  intros envs r Hr.
  assert (H : Forall risk_consistent (history_of (session (run_all envs)))).
  { apply fold_run_keeps_risk. constructor. }
  rewrite Forall_forall in H. exact (H r Hr).
Qed.

(** ** Cleaning the reply *)

Lemma dict_get_set_same {V} (d : dict V) k v : dict_get (dict_set d k v) k = Some v.
Proof.
  induction d as [| [k' v'] rest IH]; simpl.
  - now rewrite String.eqb_refl.
  - destruct (String.eqb k' k) eqn:E; simpl.
    + now rewrite String.eqb_refl.
    + now rewrite E.
Qed.

Lemma dict_get_set_other {V} (d : dict V) k k' v :
  k <> k' -> dict_get (dict_set d k v) k' = dict_get d k'.
Proof.
  intros Hne. induction d as [| [k0 v0] rest IH]; simpl.
  - destruct (String.eqb_spec k k'); [contradiction | reflexivity].
  - destruct (String.eqb_spec k0 k) as [-> | Hk]; simpl.
    + destruct (String.eqb_spec k k'); [contradiction | reflexivity].
    + destruct (String.eqb k0 k'); [reflexivity | exact IH].
Qed.

Section Clean.

Context `{RT : Runtime}.

Lemma clean_loop_not_dict coin_id info rest acc cleaned :
  clean_loop ((coin_id, info) :: rest) acc = Ok cleaned ->
  exists d, info = PDict d.
Proof. destruct info; simpl; try discriminate. eauto. Qed.

Lemma clean_loop_cons_none coin_id d rest acc :
  price_field d = PNone ->
  clean_loop ((coin_id, PDict d) :: rest) acc = clean_loop rest acc.
Proof. intros H. simpl. fold (price_field d). rewrite H. reflexivity. Qed.

Lemma clean_loop_cons_some coin_id d rest acc :
  price_field d <> PNone ->
  clean_loop ((coin_id, PDict d) :: rest) acc =
  let? p := py_float (price_field d) in
  let? c := py_float (change_field d) in
  clean_loop rest (dict_set acc coin_id (mkQuote p c)).
Proof.
  intros H. simpl. fold (price_field d). fold (change_field d).
  destruct (price_field d); try reflexivity. contradiction.
Qed.

(** What the loop leaves in the dict, entry by entry. *)
Lemma clean_loop_spec items :
  NoDup (map fst items) ->
  forall acc cleaned,
    clean_loop items acc = Ok cleaned ->
    (forall k, ~ In k (map fst items) -> dict_get cleaned k = dict_get acc k)
    /\ (forall coin_id info,
           In (coin_id, info) items ->
           exists d,
             info = PDict d
             /\ (price_field d = PNone ->
                 dict_get cleaned coin_id = dict_get acc coin_id)
             /\ (price_field d <> PNone ->
                 exists p c,
                   py_float (price_field d) = Ok p
                   /\ py_float (change_field d) = Ok c
                   /\ dict_get cleaned coin_id = Some (mkQuote p c))).
Proof.
  induction items as [| [k0 info0] rest IH]; intros Hnd acc cleaned Hrun.
  - simpl in Hrun. injection Hrun as <-. split; [reflexivity | intros ? ? []].
  - inversion Hnd as [| ? ? Hnotin Hnd']; subst.
    destruct (clean_loop_not_dict _ _ _ _ _ Hrun) as [d0 ->].
    assert (Hdec : price_field d0 = PNone \/ price_field d0 <> PNone)
      by (destruct (price_field d0); (left; reflexivity) || (right; discriminate)).
    destruct Hdec as [Hnone | Hsome].
    + rewrite (clean_loop_cons_none _ _ _ _ Hnone) in Hrun.
      destruct (IH Hnd' acc cleaned Hrun) as [Hout Hin].
      split.
      * intros k Hk. apply Hout. intros Hk'. apply Hk. right. exact Hk'.
      * intros coin_id info [Heq | Hrest].
        -- injection Heq as <- <-. exists d0.
           split; [reflexivity |]. split; [| contradiction].
           intros _. apply Hout. exact Hnotin.
        -- apply Hin. exact Hrest.
    + rewrite (clean_loop_cons_some _ _ _ _ Hsome) in Hrun.
      destruct (py_float (price_field d0)) as [p |] eqn:Ep; [| discriminate].
      destruct (py_float (change_field d0)) as [c |] eqn:Ec; [| discriminate].
      simpl in Hrun.
      destruct (IH Hnd' _ cleaned Hrun) as [Hout Hin].
      split.
      * intros k Hk. rewrite Hout by (intros Hk'; apply Hk; right; exact Hk').
        apply dict_get_set_other. intros ->. apply Hk. left. reflexivity.
      * intros coin_id info [Heq | Hrest].
        -- injection Heq as <- <-. exists d0.
           split; [reflexivity |]. split; [contradiction |].
           intros _. exists p, c. repeat split; trivial.
           rewrite (Hout k0 Hnotin). apply dict_get_set_same.
        -- destruct (Hin coin_id info Hrest) as [d [-> [Hn Hs]]].
           exists d. split; [reflexivity |]. split; [| exact Hs].
           intros Hd. rewrite (Hn Hd).
           apply dict_get_set_other. intros ->.
           apply Hnotin. apply in_map_iff. exists (coin_id, PDict d). auto.
Qed.

Lemma entry_convertible_some k d :
  entry_convertible (k, PDict d) = true ->
  price_field d <> PNone ->
  exists p c,
    py_float (price_field d) = Ok p /\ py_float (change_field d) = Ok c.
Proof.
  unfold entry_convertible. cbn [snd]. intros H Hsome. revert H.
  destruct (price_field d) eqn:E; try congruence;
    (destruct (py_float _) as [p |]; [| discriminate]);
    (destruct (py_float (change_field d)) as [c |]; [| discriminate]);
    intros _; exists p, c; split; reflexivity.
Qed.

(** The loop returns on entries of the expected shape. *)
Lemma clean_loop_total items :
  forallb entry_convertible items = true ->
  forall acc, exists cleaned, clean_loop items acc = Ok cleaned.
Proof.
  induction items as [| [k0 info0] rest IH]; intros Hok acc.
  - exists acc. reflexivity.
  - simpl in Hok. apply andb_true_iff in Hok. destruct Hok as [H0 Hrest].
    destruct info0 as [| | | | | | d0]; try discriminate.
    assert (Hdec : price_field d0 = PNone \/ price_field d0 <> PNone)
      by (destruct (price_field d0); (left; reflexivity) || (right; discriminate)).
    destruct Hdec as [Hnone | Hsome].
    + rewrite (clean_loop_cons_none _ _ _ _ Hnone). apply IH. exact Hrest.
    + rewrite (clean_loop_cons_some _ _ _ _ Hsome).
      destruct (entry_convertible_some _ _ H0 Hsome) as [p [c [-> ->]]].
      simpl. apply IH. exact Hrest.
Qed.

End Clean.

Lemma fetch_success_run `{RT : Runtime} env id ids raw w :
  try_outcome_of (http_reply env (price_request (id :: ids))) = HttpJson raw ->
  fetch_live_prices env (id :: ids) w =
  (clean raw,
   mkWorld (session w) (widgets w) (requests w ++ [price_request (id :: ids)])).
Proof. intros Hok. rewrite fetch_nonempty_run, Hok. reflexivity. Qed.

(** C6: for a reply mapping [items] (keys distinct, as in any dict): the
    cleaning returns whenever every entry has the expected shape; whenever
    it returns, an entry whose price is absent or null is not in the
    result, every other entry is in the result under its id with
    [float(price)] and [float(change)], the change being 0.0 when the
    entry has no change key, and no other id is in the result; a fetch
    that receives the reply returns exactly this cleaning. *)
Theorem clean_spec `{RT : Runtime} items :
  NoDup (map fst items) ->
  (forallb entry_convertible items = true ->
   exists cleaned, clean (PDict items) = Ok cleaned)
  /\ (forall cleaned,
         clean (PDict items) = Ok cleaned ->
         (forall k, ~ In k (map fst items) -> dict_get cleaned k = None)
         /\ (forall coin_id info,
                In (coin_id, info) items ->
                exists d,
                  info = PDict d
                  /\ (price_field d = PNone -> dict_get cleaned coin_id = None)
                  /\ (price_field d <> PNone ->
                      exists p c,
                        py_float (price_field d) = Ok p
                        /\ py_float (change_field d) = Ok c
                        /\ dict_get cleaned coin_id = Some (mkQuote p c)
                        /\ (dict_get d change_key = None -> c = zero))))
  /\ (forall env id ids w,
         try_outcome_of (http_reply env (price_request (id :: ids)))
         = HttpJson (PDict items) ->
         fst (fetch_live_prices env (id :: ids) w) = clean (PDict items)).
Proof.
  intros Hnd. split; [| split].
  - intros Hok. apply (clean_loop_total items Hok []).
  - intros cleaned Hrun. unfold clean in Hrun. simpl in Hrun.
    destruct (clean_loop_spec items Hnd [] cleaned Hrun) as [Hout Hin].
    split; [exact Hout |].
    intros coin_id info Hi.
    destruct (Hin coin_id info Hi) as [d [-> [Hn Hs]]].
    exists d. split; [reflexivity |]. split; [exact Hn |].
    intros Hsome. destruct (Hs Hsome) as [p [c [Hp [Hc Hget]]]].
    exists p, c. repeat split; trivial.
    intros Habs. unfold change_field, dict_get_default in Hc.
    rewrite Habs in Hc. simpl in Hc. congruence.
  - intros env id ids w Hok. rewrite (fetch_success_run _ _ _ _ _ Hok). reflexivity.
Qed.

Lemma clean_spec_witness :
  clean (RT := example_runtime) (PDict example_reply)
  = Ok [ ("bitcoin"%string, mkQuote (Finite (650001234 # 10000)) (Finite 11));
         ("ethereum"%string, mkQuote (Finite 3000) zero) ]
  /\ exists cleaned, clean (RT := example_runtime) (PDict example_reply) = Ok cleaned.
Proof.
  split; [reflexivity |].
  assert (Hnd : NoDup (map fst example_reply)).
  { repeat constructor; simpl; intuition discriminate. }
  exact (proj1 (clean_spec (RT := example_runtime) example_reply Hnd) eq_refl).
Defined.

(** ** Filtering and pivoting the history *)

Lemma isin_In names name : isin names name = true <-> In name names.
Proof.
  unfold isin. rewrite existsb_exists. split.
  - intros [x [Hx Heq]]. apply String.eqb_eq in Heq. now subst.
  - intros H. exists name. split; [exact H | apply String.eqb_refl].
Qed.

Section SortUniqFacts.

Context {A : Type} (cmp : A -> A -> comparison) (lt : A -> A -> Prop).
Hypothesis cmp_spec : forall x y, CompSpec eq lt x y (cmp x y).
Hypothesis lt_strict : StrictOrder lt.

Lemma in_insert_uniq x z l : In z (insert_uniq cmp x l) <-> z = x \/ In z l.
Proof.
  induction l as [| y rest IH]; simpl.
  - intuition.
  - destruct (cmp_spec x y) as [Heq | Hlt | Hgt]; simpl.
    + subst. intuition.
    + intuition.
    + rewrite IH. intuition.
Qed.

Lemma in_sort_uniq z l : In z (sort_uniq cmp l) <-> In z l.
Proof.
  induction l as [| x rest IH]; simpl; [reflexivity |].
  rewrite in_insert_uniq, IH. intuition.
Qed.

Lemma insert_uniq_HdRel y x l :
  lt y x -> HdRel lt y l -> HdRel lt y (insert_uniq cmp x l).
Proof.
  intros Hyx Hhd. destruct l as [| z rest]; simpl.
  - constructor. exact Hyx.
  - destruct (cmp x z); try (constructor; exact Hyx); trivial.
    constructor. inversion Hhd. assumption.
Qed.

Lemma insert_uniq_Sorted x l :
  Sorted lt l -> Sorted lt (insert_uniq cmp x l).
Proof.
  induction l as [| y rest IH]; intros Hs; simpl.
  - repeat constructor.
  - inversion Hs as [| ? ? Hrest Hhd]; subst.
    destruct (cmp_spec x y) as [Heq | Hlt | Hgt].
    + exact Hs.
    + constructor; [exact Hs | constructor; exact Hlt].
    + constructor; [apply IH; exact Hrest |].
      apply insert_uniq_HdRel; assumption.
Qed.

Lemma sort_uniq_StronglySorted l : StronglySorted lt (sort_uniq cmp l).
Proof.
  apply Sorted_StronglySorted; [intros a b c; apply transitivity |].
  induction l as [| x rest IH]; simpl; [constructor |].
  apply insert_uniq_Sorted. exact IH.
Qed.

Lemma StronglySorted_NoDup l : StronglySorted lt l -> NoDup l.
Proof.
  induction 1 as [| x l Hs IH Hall]; constructor; trivial.
  intros Hin. rewrite Forall_forall in Hall.
  exact (irreflexivity (Hall x Hin)).
Qed.

End SortUniqFacts.

(** [sort_index] finds nothing to move in a frame whose index is already
    strictly ascending. *)
Lemma sort_rows_sorted rows :
  Sorted Z.lt (map fst rows) -> fold_right insert_row [] rows = rows.
Proof.
  induction rows as [| r rest IH]; intros Hs; simpl; [reflexivity |].
  inversion Hs as [| ? ? Hrest Hhd]; subst.
  rewrite (IH Hrest). destruct rest as [| r' rest']; simpl; [reflexivity |].
  inversion Hhd; subst.
  destruct (Z.leb_spec (fst r) (fst r')); [reflexivity | lia].
Qed.

Lemma find_row_map {B} (f : Z -> B) t index :
  In t index ->
  find (fun r => Z.eqb (fst r) t) (map (fun t' => (t', f t')) index) = Some (t, f t).
Proof.
  induction index as [| t0 rest IH]; intros Hin; simpl; [destruct Hin |].
  destruct (Z.eqb_spec t0 t) as [-> | Hne]; [reflexivity |].
  destruct Hin as [Heq | Hin]; [contradiction | apply IH; exact Hin].
Qed.

Lemma dict_get_combine_map {B} (g : string -> B) c columns :
  In c columns -> dict_get (combine columns (map g columns)) c = Some (g c).
Proof.
  induction columns as [| c0 rest IH]; intros Hin; simpl; [destruct Hin |].
  destruct (String.eqb_spec c0 c) as [-> | Hne]; [reflexivity |].
  destruct Hin as [Heq | Hin]; [contradiction | apply IH; exact Hin].
Qed.

Lemma agg_last_no_na values :
  forallb notna values = true -> agg_last values = last values NaN.
Proof.
  intros H. unfold agg_last. f_equal.
  induction values as [| v rest IH]; simpl in *; [reflexivity |].
  apply andb_true_iff in H. destruct H as [Hv Hrest].
  rewrite Hv, (IH Hrest). reflexivity.
Qed.

Lemma chart_df_rows filtered :
  chart_df filtered = pivot_table_last filtered.
Proof.
  unfold chart_df, sort_index, pivot_table_last. simpl. f_equal.
  apply sort_rows_sorted. rewrite map_map. simpl. rewrite map_id.
  apply StronglySorted_Sorted.
  apply (sort_uniq_StronglySorted Z.compare Z.lt Z.compare_spec Z.lt_strorder).
Qed.

Lemma pivot_index_In filtered t :
  In t (map fst (pv_rows (pivot_table_last filtered)))
  <-> exists r, In r filtered /\ timestamp r = t /\ notna (price r) = true.
Proof.
  unfold pivot_table_last. simpl. rewrite map_map. simpl. rewrite map_id.
  rewrite (in_sort_uniq Z.compare Z.lt Z.compare_spec), in_map_iff.
  split.
  - intros [r [Ht Hr]]. apply filter_In in Hr. destruct Hr as [Hin Hna].
    exists r. auto.
  - intros [r [Hin [Ht Hna]]]. exists r. split; [exact Ht |].
    apply filter_In. auto.
Qed.

Lemma pivot_columns_In filtered c :
  In c (pv_columns (pivot_table_last filtered))
  <-> exists r, In r filtered /\ coin_name r = c /\ notna (price r) = true.
Proof.
  unfold pivot_table_last. simpl.
  rewrite (in_sort_uniq String_as_OT.compare String_as_OT.lt String_as_OT.compare_spec),
    in_map_iff.
  split.
  - intros [r [Hc Hr]]. apply filter_In in Hr. destruct Hr as [Hin Hna].
    exists r. auto.
  - intros [r [Hin [Hc Hna]]]. exists r. split; [exact Hc |].
    apply filter_In. auto.
Qed.

(** C4: a row is in the filtered frame exactly when it is in the history
    and its asset name is selected, so no row of an excluded asset is
    there; the chart drawn from it has columns for selected names only. *)
Theorem filter_isin_only_selected history_df names :
  (forall r,
      In r (filter_isin history_df names)
      <-> In r history_df /\ In (coin_name r) names)
  /\ (forall r,
         ~ In (coin_name r) names -> ~ In r (filter_isin history_df names))
  /\ (forall c,
         In c (pv_columns (chart_df (filter_isin history_df names))) ->
         In c names).
Proof.
  assert (Hiff : forall r,
             In r (filter_isin history_df names)
             <-> In r history_df /\ In (coin_name r) names).
  { intros r. unfold filter_isin. rewrite filter_In, isin_In. reflexivity. }
  split; [exact Hiff |]. split.
  - intros r Hex Hin. apply Hiff in Hin. tauto.
  - intros c Hc. rewrite chart_df_rows in Hc. apply pivot_columns_In in Hc.
    destruct Hc as [r [Hin [<- _]]]. apply Hiff in Hin. tauto.
Qed.


(** ** Display names *)

(** An id has no display name exactly when it is no value of [COINS]. *)
Lemma id_to_display_None coin_id :
  dict_get id_to_display coin_id = None <-> ~ In coin_id (map snd COINS).
Proof.
  change id_to_display with
    [ ("bitcoin", "Bitcoin (BTC)"); ("ethereum", "Ethereum (ETH)");
      ("solana", "Solana (SOL)"); ("tether", "Tether (USDT)");
      ("binancecoin", "BNB (BNB)"); ("ripple", "XRP (XRP)") ]%string.
  cbn [dict_get map snd COINS In].
  repeat match goal with
         | |- context [String.eqb ?a coin_id] =>
             destruct (String.eqb_spec a coin_id)
         end;
    split; intros H; try discriminate; try tauto;
    intuition congruence.
Qed.

(** C10: an entry whose id is no value of [COINS] is kept at its position
    by both loops, with the id itself as display name, and the row built
    from it is in the log after [update_history]. *)
Theorem unknown_id_keeps_raw_name `{RT : Runtime} coin_id live_data i info :
  ~ In coin_id (map snd COINS) ->
  nth_error live_data i = Some (coin_id, info) ->
  (forall now,
      nth_error (history_loop now live_data []) i
      = Some (mkObservation now coin_id coin_id (q_price info) (q_change_24h info)
                (classify_risk (q_change_24h info))))
  /\ nth_error (get_latest_snapshot_df live_data) i
     = Some (mkSnapshotRow coin_id
               (round_ndigits (q_price info) 4)
               (round_ndigits (q_change_24h info) 2)
               (classify_risk (q_change_24h info)))
  /\ (forall env w,
         In (mkObservation (utcnow env) coin_id coin_id (q_price info)
               (q_change_24h info) (classify_risk (q_change_24h info)))
            (history_of (session (snd (update_history env live_data w))))).
Proof.
  intros Hunknown Hnth. apply id_to_display_None in Hunknown.
  assert (Hobs : forall now,
             observation_of now (coin_id, info)
             = mkObservation now coin_id coin_id (q_price info) (q_change_24h info)
                 (classify_risk (q_change_24h info))).
  { intros now. unfold observation_of, dict_get_default. cbn [fst snd].
    rewrite Hunknown. reflexivity. }
  split; [| split].
  - intros now. rewrite history_loop_map. simpl.
    rewrite nth_error_map, Hnth. cbn [option_map]. now rewrite Hobs.
  - rewrite get_latest_snapshot_df_map, nth_error_map, Hnth.
    unfold snapshot_row_of, dict_get_default. cbn [fst snd option_map].
    rewrite Hunknown. reflexivity.
  - intros env w. rewrite update_history_history. apply in_or_app. right.
    rewrite <- Hobs. apply in_map. eapply nth_error_In. exact Hnth.
Qed.

Lemma unknown_id_keeps_raw_name_witness :
  nth_error
    (get_latest_snapshot_df (RT := example_runtime)
       [ ("bitcoin"%string, mkQuote (Finite 1) (Finite 2));
         ("dogecoin"%string, mkQuote (Finite 3) (Finite 7)) ]) 1
  = Some (mkSnapshotRow "dogecoin" (Finite 3) (Finite 7) "MEDIUM").
Proof.
  refine (proj1 (proj2 (unknown_id_keeps_raw_name (RT := example_runtime)
                          "dogecoin"
                          [ ("bitcoin"%string, mkQuote (Finite 1) (Finite 2));
                            ("dogecoin"%string, mkQuote (Finite 3) (Finite 7)) ]
                          1%nat (mkQuote (Finite 3) (Finite 7)) _ eq_refl))).
  simpl. intuition discriminate.
Defined.

(** ** A successful refresh, and a reply the cleaning cannot take *)

(** X2: when the reply cleans to a non-empty mapping, the button block
    appends one observation per cleaned entry, keeps the mapping as last
    fetch and shows the success message; when it cleans to the empty
    mapping, only the request is recorded. *)
Theorem on_fetch_click_success `{RT : Runtime} env id ids raw live_data w :
  try_outcome_of (http_reply env (price_request (id :: ids))) = HttpJson raw ->
  clean raw = Ok live_data ->
  on_fetch_click env (id :: ids) w =
  (Ok tt,
   if truthy live_data then
     mkWorld
       (mkSession
          (Some (history_of (session w)
                   ++ map (observation_of (utcnow env)) live_data))
          (Some live_data))
       (widgets w ++ [StSuccess "✅ Data refreshed successfully!"])
       (requests w ++ [price_request (id :: ids)])
   else
     mkWorld (session w) (widgets w) (requests w ++ [price_request (id :: ids)])).
Proof.
  intros Hreply Hclean. unfold on_fetch_click. unfold bind at 1.
  rewrite (fetch_success_run _ _ _ _ _ Hreply), Hclean.
  destruct (truthy live_data); [| reflexivity].
  unfold bind at 1. rewrite update_history_run. reflexivity.
Qed.

Lemma on_fetch_click_success_witness :
  on_fetch_click (RT := example_runtime) example_env ["bitcoin"; "ethereum"]%string
    initial_world
  = (Ok tt,
     mkWorld
       (mkSession
          (Some [ mkObservation 1700000000 "Bitcoin (BTC)" "bitcoin"
                    (Finite (650001234 # 10000)) (Finite 11) "HIGH";
                  mkObservation 1700000000 "Ethereum (ETH)" "ethereum"
                    (Finite 3000) zero "LOW" ])
          (Some [ ("bitcoin"%string, mkQuote (Finite (650001234 # 10000)) (Finite 11));
                  ("ethereum"%string, mkQuote (Finite 3000) zero) ]))
       [StSuccess "✅ Data refreshed successfully!"]
       [price_request ["bitcoin"; "ethereum"]%string]).
Proof.
  exact (on_fetch_click_success (RT := example_runtime) example_env
           "bitcoin" ["ethereum"%string] (PDict example_reply) _ initial_world
           eq_refl eq_refl).
Defined.

(** X3: an entry with a price whose change key is present but null is
    not defaulted to 0.0: converting the change raises TypeError and the
    cleaning stops there. *)
Theorem clean_null_change_raises `{RT : Runtime} coin_id info rest cleaned p :
  price_field info <> PNone ->
  py_float (price_field info) = Ok p ->
  dict_get info change_key = Some PNone ->
  clean_loop ((coin_id, PDict info) :: rest) cleaned = Raise TypeError.
Proof.
  intros Hsome Hp Hnull. rewrite (clean_loop_cons_some _ _ _ _ Hsome), Hp.
  unfold change_field, dict_get_default. rewrite Hnull. reflexivity.
Qed.

Lemma clean_null_change_raises_witness :
  clean (RT := example_runtime)
    (PDict [ ("bitcoin"%string,
              PDict [ ("usd"%string, PFloat (Finite 1));
                      ("usd_24h_change"%string, PNone) ]) ])
  = Raise TypeError.
Proof.
  refine (clean_null_change_raises (RT := example_runtime) "bitcoin"
            [ ("usd"%string, PFloat (Finite 1)); ("usd_24h_change"%string, PNone) ]
            [] [] (Finite 1) _ eq_refl eq_refl).
  discriminate.
Defined.

(** ** Worked examples *)

Example classify_risk_examples :
  classify_risk (Finite (123 # 10)) = "HIGH"
  /\ classify_risk (Finite (-7)) = "MEDIUM"
  /\ classify_risk (Finite 1) = "LOW"
  /\ classify_risk NegInf = "HIGH"
  /\ classify_risk NaN = "LOW".
Proof. repeat split. Qed.

(** The spec's reply: one click logs bitcoin at 65000.1234 with risk
    HIGH, keeps the cleaned reply as last fetch and sends one request. *)
Example run_example_reply :
  let w := run (RT := example_runtime) initial_world example_env in
  history_of (session w)
  = [ mkObservation 1700000000 "Bitcoin (BTC)" "bitcoin"
        (Finite (650001234 # 10000)) (Finite 11) "HIGH";
      mkObservation 1700000000 "Ethereum (ETH)" "ethereum"
        (Finite 3000) zero "LOW" ]
  /\ List.length (last_live_data_of (session w)) = 2%nat
  /\ requests w = [price_request ["bitcoin"; "ethereum"]%string].
Proof. repeat split. Qed.

(** Two rows of one pair, the later one with a NaN price: the chart keeps
    the earlier price. *)
Example chart_df_passes_over_nan :
  pivot_cell
    (chart_df [ mkObservation 1 "A" "a" (Finite 2) zero "LOW";
                mkObservation 1 "A" "a" NaN zero "LOW";
                mkObservation 0 "B" "b" (Finite 5) zero "LOW" ]) 1 "A"
  = Some (Finite 2)
  /\ chart_df [ mkObservation 1 "A" "a" (Finite 2) zero "LOW";
                mkObservation 1 "A" "a" NaN zero "LOW";
                mkObservation 0 "B" "b" (Finite 5) zero "LOW" ]
     = mkPivot ["A"; "B"]%string [ (0, [NaN; Finite 5]); (1, [Finite 2; NaN]) ].
Proof. split; reflexivity. Qed.

(** ** What a run shows *)

Lemma emit_run x w :
  emit x w = (Ok tt, mkWorld (session w) (widgets w ++ [x]) (requests w)).
Proof. reflexivity. Qed.

Lemma render_snapshot_cons `{RT : Runtime} row rest w :
  render_snapshot (row :: rest) w =
  render_snapshot rest
    (mkWorld (session w) (widgets w ++ card_widgets row) (requests w)).
Proof.
  cbn [render_snapshot]. unfold bind, emit, card_widgets, risk_badge. cbv zeta.
  destruct (String.eqb (Risk_Level row) "HIGH");
    [| destruct (String.eqb (Risk_Level row) "MEDIUM")];
    cbn [session widgets requests]; rewrite <- !app_assoc; reflexivity.
Qed.

Lemma render_snapshot_run `{RT : Runtime} rows w :
  render_snapshot rows w =
  (Ok tt, mkWorld (session w) (widgets w ++ flat_map card_widgets rows) (requests w)).
Proof.
  revert w. induction rows as [| row rest IH]; intros w.
  - simpl. rewrite app_nil_r. destruct w; reflexivity.
  - rewrite render_snapshot_cons, IH. cbn [session widgets requests flat_map].
    rewrite <- app_assoc. reflexivity.
Qed.

(** On a session that holds both keys the views return normally and add
    exactly [view_widgets] to the page. *)
Lemma render_run `{RT : Runtime} env h d ws rq :
  render env (mkWorld (mkSession (Some h) (Some d)) ws rq) =
  (Ok tt,
   mkWorld (mkSession (Some h) (Some d))
     (ws ++ view_widgets (selected_coins_display env) d h) rq).
Proof.
  unfold render, view_widgets.
  unfold bind at 1. cbn [get_last_live_data get_session bind ss_last_live_data
                           session ret fst snd].
  unfold bind at 1. cbn [get_history get_session bind ss_history session ret].
  unfold bind at 1.
  assert (H1 : forall w,
             (if negb (truthy d)
              then emit (StWarning
                    "No live data yet. Select coins and click **Fetch latest data**.")
              else render_snapshot (get_latest_snapshot_df d)) w
             = (Ok tt,
                mkWorld (session w)
                  (widgets w ++
                   (if negb (truthy d)
                    then [StWarning
                      "No live data yet. Select coins and click **Fetch latest data**."]
                    else flat_map card_widgets (get_latest_snapshot_df d)))
                  (requests w))).
  { intros w. destruct (negb (truthy d));
      [apply emit_run | apply render_snapshot_run]. }
  rewrite H1. cbn [session widgets requests].
  unfold bind at 1.
  destruct (negb (truthy h)).
  - rewrite !emit_run. cbn [session widgets requests].
    rewrite <- !app_assoc. reflexivity.
  - cbv zeta.
    destruct (negb (truthy (filter_isin h (selected_coins_display env))));
      rewrite !emit_run; cbn [session widgets requests];
      rewrite <- !app_assoc; reflexivity.
Qed.

(** ** Selection of ids *)

Lemma lookup_ids_cons name rest :
  lookup_ids (name :: rest) =
  match dict_get COINS name with
  | Some id => let? ids := lookup_ids rest in Ok (id :: ids)
  | None => Raise (KeyError name)
  end.
Proof. reflexivity. Qed.

Lemma lookup_ids_Ok names ids :
  lookup_ids names = Ok ids
  <-> Forall2 (fun n id => dict_get COINS n = Some id) names ids.
Proof.
  revert ids. induction names as [| n ns IH]; intros ids.
  - simpl. split.
    + intros H. injection H as <-. constructor.
    + intros H. inversion H. reflexivity.
  - rewrite lookup_ids_cons. split.
    + intros H. destruct (dict_get COINS n) as [id |] eqn:En; [| discriminate].
      destruct (lookup_ids ns) as [ids' |] eqn:Ens; [| discriminate].
      simpl in H. injection H as <-. constructor; [exact En |].
      apply IH. reflexivity.
    + intros H. inversion H as [| ? id ? ids' Hn Hns]; subst.
      rewrite Hn. apply IH in Hns. rewrite Hns. reflexivity.
Qed.

Lemma lookup_ids_Raise names e :
  lookup_ids names = Raise e
  <-> exists known k rest,
        names = known ++ k :: rest
        /\ Forall (fun n => dict_get COINS n <> None) known
        /\ dict_get COINS k = None
        /\ e = KeyError k.
Proof.
  induction names as [| n ns IH].
  - simpl. split; [discriminate |].
    intros [known [k [rest [H _]]]]. destruct known; discriminate.
  - rewrite lookup_ids_cons. split.
    + intros H. destruct (dict_get COINS n) as [id |] eqn:En.
      * destruct (lookup_ids ns) as [ids' | e'] eqn:Ens; [discriminate |].
        simpl in H. injection H as <-.
        destruct (proj1 IH eq_refl) as [known [k [rest [-> [Hk [Hnone ->]]]]]].
        exists (n :: known), k, rest. repeat split; trivial.
        constructor; [congruence | exact Hk].
      * injection H as <-. exists [], n, ns. repeat split; trivial.
    + intros [known [k [rest [Hsplit [Hk [Hnone ->]]]]]].
      destruct known as [| n' known'].
      * simpl in Hsplit. injection Hsplit as -> ->. rewrite Hnone. reflexivity.
      * simpl in Hsplit. injection Hsplit as -> ->.
        inversion Hk as [| ? ? Hn Hknown]; subst.
        destruct (dict_get COINS n') as [id |]; [| contradiction].
        assert (Hr : lookup_ids (known' ++ k :: rest) = Raise (KeyError k)).
        { apply IH. exists known', k, rest. repeat split; trivial. }
        rewrite Hr. reflexivity.
Qed.

(** X4: the ids of a selection are found name by name in [COINS], in
    order; the lookup raises exactly when some name is no key of [COINS],
    and then it is KeyError of the first such name. *)
Theorem lookup_ids_spec names :
  (forall ids,
      lookup_ids names = Ok ids
      <-> Forall2 (fun n id => dict_get COINS n = Some id) names ids)
  /\ (forall e,
         lookup_ids names = Raise e
         <-> exists known k rest,
               names = known ++ k :: rest
               /\ Forall (fun n => dict_get COINS n <> None) known
               /\ dict_get COINS k = None
               /\ e = KeyError k).
Proof.
  split; [intros ids; apply lookup_ids_Ok | intros e; apply lookup_ids_Raise].
Qed.

(** Every pair of [COINS] is read back by [id_to_display]. *)
Lemma display_name_of_coin name id :
  dict_get COINS name = Some id -> display_name id = name.
Proof.
  unfold COINS. cbn [dict_get].
  repeat match goal with
         | |- context [String.eqb ?a name] => destruct (String.eqb_spec a name)
         end;
    intros H; try discriminate; injection H as <-; subst; reflexivity.
Qed.

Lemma lookup_ids_display names ids :
  lookup_ids names = Ok ids -> map display_name ids = names.
Proof.
  intros H. apply lookup_ids_Ok in H.
  induction H as [| n id ns ids' Hn _ IH]; simpl; [reflexivity |].
  rewrite (display_name_of_coin _ _ Hn), IH. reflexivity.
Qed.

(** X5: display names and ids round-trip: the ids looked up for a
    selection map back to the selected names, so every observation built
    for a reply whose keys are among those ids carries a selected name and
    passes the chart's filter for the same selection. *)
Theorem selection_round_trip names ids :
  lookup_ids names = Ok ids ->
  map display_name ids = names
  /\ (forall now live_data,
         Forall (fun item => In (fst item) ids) live_data ->
         Forall (fun r => In (coin_name r) names)
           (map (observation_of now) live_data)
         /\ filter_isin (map (observation_of now) live_data) names
            = map (observation_of now) live_data).
Proof.
  intros Hids. pose proof (lookup_ids_display names ids Hids) as Hback.
  split; [exact Hback |].
  intros now live_data Hkeys.
  assert (Hall : Forall (fun r => In (coin_name r) names)
                   (map (observation_of now) live_data)).
  { apply Forall_forall. intros r Hr. apply in_map_iff in Hr.
    destruct Hr as [item [<- Hitem]].
    rewrite Forall_forall in Hkeys. specialize (Hkeys item Hitem).
    rewrite <- Hback. change (coin_name (observation_of now item))
      with (display_name (fst item)).
    apply in_map. exact Hkeys. }
  split; [exact Hall |].
  unfold filter_isin. apply forallb_filter_id.
  apply forallb_forall. intros r Hr. apply isin_In.
  rewrite Forall_forall in Hall. apply Hall. exact Hr.
Qed.

Lemma selection_round_trip_witness :
  map display_name ["bitcoin"; "ripple"]%string = ["Bitcoin (BTC)"; "XRP (XRP)"]%string.
Proof.
  exact (proj1 (selection_round_trip ["Bitcoin (BTC)"; "XRP (XRP)"]%string
                  ["bitcoin"; "ripple"]%string eq_refl)).
Defined.

(** ** One run of the script, case by case *)

(** X6: whatever the selection and the outcome of the call, a fetch
    never touches the session; it sends exactly one request, the one for
    the given ids, when the list is non-empty and none otherwise; it shows
    nothing except the error message of a call that failed with a
    [RequestException]; and it raises only what the cleaning of a decoded
    body raises, or an exception other than [RequestException] that
    [requests.get] or [response.json()] raised and the [except] clause
    does not catch. *)
Theorem fetch_live_prices_frame `{RT : Runtime} env ids w :
  let out := fetch_live_prices env ids w in
  let reply := http_reply env (price_request ids) in
  session (snd out) = session w
  /\ requests (snd out)
     = requests w ++ (if truthy ids then [price_request ids] else [])
  /\ (widgets (snd out) = widgets w
      \/ exists e,
           api_call_fails reply e
           /\ widgets (snd out)
              = widgets w ++ [StError ("❌ Error calling CoinGecko API: " ++ e)%string])
  /\ (forall e,
         fst out = Raise e ->
         (exists r raw,
             reply = GetReturns r
             /\ ~ (400 <= status_code r < 600)
             /\ json_body r = JsonValue raw
             /\ clean raw = Raise e)
         \/ ((forall msg, e <> RequestException msg)
             /\ (reply = GetRaises e
                 \/ exists r,
                      reply = GetReturns r
                      /\ ~ (400 <= status_code r < 600)
                      /\ json_body r = JsonRaises e))).
Proof.
  destruct ids as [| id ids'].
  - cbn. rewrite app_nil_r. repeat split; auto. discriminate.
  - cbv zeta. rewrite fetch_nonempty_run.
    destruct (try_outcome_of (http_reply env (price_request (id :: ids'))))
      as [e | raw | e] eqn:E; cbn [fst snd session widgets requests truthy].
    + repeat split; [| discriminate].
      right. exists e. split; [| reflexivity].
      apply try_outcome_fails. exact E.
    + repeat split; [left; reflexivity |].
      intros e He. left. apply try_outcome_json in E.
      destruct E as [r [Hr [Hst Hj]]]. exists r, raw. auto.
    + repeat split; [left; reflexivity |].
      intros e0 He. injection He as <-. right.
      apply try_outcome_escapes. exact E.
Qed.

(** The tail of [main] below the button block, as one equation. *)
Lemma main_tail_run `{RT : Runtime} env w :
  (ensure_last_live_data ;; ensure_history ;; render env) w =
  (Ok tt,
   mkWorld
     (mkSession (Some (history_of (session w)))
        (Some (last_live_data_of (session w))))
     (widgets w
        ++ view_widgets (selected_coins_display env)
             (last_live_data_of (session w)) (history_of (session w)))
     (requests w)).
Proof.
  unfold bind at 1. rewrite ensure_last_live_data_run.
  unfold bind at 1. rewrite ensure_history_run.
  cbn [session widgets requests ss_history ss_last_live_data history_of].
  apply render_run.
Qed.

(** The button block, as one equation. *)
Lemma on_fetch_click_run `{RT : Runtime} env ids w :
  on_fetch_click env ids w =
  if negb (truthy ids) then (Ok tt, w)
  else
    let w_req := mkWorld (session w) (widgets w) (requests w ++ [price_request ids]) in
    match try_outcome_of (http_reply env (price_request ids)) with
    | HttpEscapes e => (Raise e, w_req)
    | HttpFails e =>
        (Ok tt,
         mkWorld (session w)
           (widgets w ++ [StError ("❌ Error calling CoinGecko API: " ++ e)%string])
           (requests w ++ [price_request ids]))
    | HttpJson raw =>
        match clean raw with
        | Raise e => (Raise e, w_req)
        | Ok live_data =>
            (Ok tt,
             if truthy live_data then
               mkWorld
                 (mkSession
                    (Some (history_of (session w)
                             ++ map (observation_of (utcnow env)) live_data))
                    (Some live_data))
                 (widgets w ++ [StSuccess "✅ Data refreshed successfully!"])
                 (requests w ++ [price_request ids])
             else w_req)
        end
    end.
Proof.
  destruct ids as [| id ids']; [reflexivity |].
  change (negb (truthy (id :: ids'))) with false. cbv iota zeta.
  unfold on_fetch_click. unfold bind at 1. rewrite fetch_nonempty_run.
  destruct (try_outcome_of (http_reply env (price_request (id :: ids'))))
    as [e | raw | e]; try reflexivity.
  destruct (clean raw) as [live_data | e]; [| reflexivity].
  destruct (truthy live_data); [| reflexivity].
  unfold bind at 1. rewrite update_history_run. reflexivity.
Qed.

Lemma main_run `{RT : Runtime} env ids w :
  lookup_ids (selected_coins_display env) = Ok ids ->
  main env w =
  if clicked env then
    match on_fetch_click env ids w with
    | (Ok _, w1) => (ensure_last_live_data ;; ensure_history ;; render env) w1
    | (Raise e, w1) => (Raise e, w1)
    end
  else (ensure_last_live_data ;; ensure_history ;; render env) w.
Proof.
  intros Hids. unfold main. unfold bind at 1. unfold lift. rewrite Hids.
  unfold bind at 1. destruct (clicked env); [| reflexivity].
  destruct (on_fetch_click env ids w) as [[[] | e] w1]; reflexivity.
Qed.





(** X9: a run sends at most one request: the one for the selected ids
    when the button was clicked on a non-empty selection, none otherwise;
    this holds whether the run returns or raises. *)
Theorem main_requests `{RT : Runtime} env w :
  requests (snd (main env w)) =
  requests w
    ++ match lookup_ids (selected_coins_display env) with
       | Ok ids =>
           if clicked env && truthy ids then [price_request ids] else []
       | Raise _ => []
       end.
Proof.
  destruct (lookup_ids (selected_coins_display env)) as [ids | e0] eqn:Hids.
  - rewrite (main_run env ids w Hids).
    destruct (clicked env); cbn [andb];
      [| rewrite main_tail_run; cbn; now rewrite app_nil_r].
    rewrite on_fetch_click_run.
    destruct (truthy ids); cbn [negb];
      [| rewrite main_tail_run; cbn; now rewrite app_nil_r].
    cbv zeta.
    destruct (try_outcome_of (http_reply env (price_request ids)))
      as [e1 | raw | e1];
      [rewrite main_tail_run; reflexivity | | reflexivity].
    destruct (clean raw) as [live_data | e1]; [| reflexivity].
    rewrite main_tail_run. destruct (truthy live_data); reflexivity.
  - unfold main. unfold bind at 1. unfold lift. rewrite Hids. cbn.
    now rewrite app_nil_r.
Qed.

(** ** Invariants of the log over whole runs *)

Section MainSteps.

Context `{RT : Runtime}.
Variable env : run_env.
Variable R : world -> world -> Prop.
Hypothesis R_refl : forall w, R w w.
Hypothesis R_trans : forall a b c, R a b -> R b c -> R a c.
Hypothesis R_update : forall live_data, steps R (update_history env live_data).
(** [R] looks at the log only. *)
Hypothesis R_log :
  forall w w', history_of (session w') = history_of (session w) -> R w w'.

Lemma steps_main : steps R (main env).
Proof.
  assert (Hemit : forall w x,
             R w (mkWorld (session w) (widgets w ++ [x]) (requests w)))
    by (intros; apply R_log; reflexivity).
  assert (Hreq : forall w rq,
             R w (mkWorld (session w) (widgets w) (requests w ++ [rq])))
    by (intros; apply R_log; reflexivity).
  unfold main.
  apply steps_bind; [exact R_trans | apply steps_lift, R_refl |].
  intros selected_ids.
  apply steps_bind; [exact R_trans | |].
  - apply steps_if; [| apply steps_ret, R_refl].
    unfold on_fetch_click.
    apply steps_bind; [exact R_trans | apply steps_fetch_live_prices; auto |].
    intros live_data. apply steps_if; [| apply steps_ret, R_refl].
    apply steps_bind; [exact R_trans | apply R_update |].
    intros _. apply steps_bind; [exact R_trans | |].
    + intros w. rewrite set_last_live_data_run. apply R_log. reflexivity.
    + intros _. apply steps_emit. exact Hemit.
  - intros _. apply steps_bind; [exact R_trans | |].
    + intros w. rewrite ensure_last_live_data_run. apply R_log. reflexivity.
    + intros _. apply steps_bind; [exact R_trans | |].
      * intros w. rewrite ensure_history_run. apply R_log.
        destruct w as [[[h |] lld] ws rq]; reflexivity.
      * intros _. apply steps_render; auto.
Qed.

End MainSteps.

Lemma extends_log_refl w : extends_log w w.
Proof. exists []. now rewrite app_nil_r. Qed.

Lemma extends_log_trans a b c :
  extends_log a b -> extends_log b c -> extends_log a c.
Proof.
  intros [x Hx] [y Hy]. exists (x ++ y). rewrite Hy, Hx, app_assoc. reflexivity.
Qed.

Lemma main_extends_log `{RT : Runtime} env : steps extends_log (main env).
Proof.
  apply steps_main.
  - apply extends_log_refl.
  - apply extends_log_trans.
  - intros live_data w. eexists. apply update_history_history.
  - intros w w' H. exists []. rewrite H, app_nil_r. reflexivity.
Qed.

Lemma fold_run_extends_log `{RT : Runtime} envs w :
  extends_log w (fold_left run envs w).
Proof.
  revert w. induction envs as [| env rest IH]; intros w; simpl.
  - apply extends_log_refl.
  - eapply extends_log_trans; [apply (main_extends_log env w) | apply IH].
Qed.

(** X10: the log only grows: after a run, returning or raising, it is the
    log before the run followed by the rows the run appended, and over a
    browser session the log reached after more runs starts with the log
    reached before them. *)
Theorem history_only_grows `{RT : Runtime} :
  (forall env w,
      exists extra,
        history_of (session (run w env)) = history_of (session w) ++ extra)
  /\ (forall envs more,
         exists extra,
           history_of (session (run_all (envs ++ more)))
           = history_of (session (run_all envs)) ++ extra).
Proof.
  split.
  - intros env w. apply (main_extends_log env w).
  - intros envs more. unfold run_all. rewrite fold_left_app.
    apply fold_run_extends_log.
Qed.

(** *** Timestamps *)











(** ** More on the cleaning loop *)

Lemma dict_set_keys_new {V} (d : dict V) k v :
  ~ In k (map fst d) -> map fst (dict_set d k v) = map fst d ++ [k].
Proof.
  induction d as [| [k' v'] rest IH]; intros Hnew; simpl; [reflexivity |].
  destruct (String.eqb_spec k' k) as [-> | Hne].
  - exfalso. apply Hnew. left. reflexivity.
  - simpl. f_equal. apply IH. intros Hin. apply Hnew. right. exact Hin.
Qed.

Section CleanMore.

Context `{RT : Runtime}.

Lemma clean_loop_keys items :
  NoDup (map fst items) ->
  forall acc cleaned,
    (forall k, In k (map fst items) -> ~ In k (map fst acc)) ->
    clean_loop items acc = Ok cleaned ->
    map fst cleaned = map fst acc ++ map fst (filter has_price items).
Proof.
  induction items as [| [k0 info0] rest IH]; intros Hnd acc cleaned Hfresh Hrun.
  - simpl in Hrun. injection Hrun as <-. simpl. now rewrite app_nil_r.
  - inversion Hnd as [| ? ? Hnotin Hnd']; subst.
    destruct (clean_loop_not_dict _ _ _ _ _ Hrun) as [d0 ->].
    assert (Hdec : price_field d0 = PNone \/ price_field d0 <> PNone)
      by (destruct (price_field d0); (left; reflexivity) || (right; discriminate)).
    destruct Hdec as [Hnone | Hsome].
    + rewrite (clean_loop_cons_none _ _ _ _ Hnone) in Hrun.
      assert (Hp : has_price (k0, PDict d0) = false)
        by (unfold has_price; cbn [snd]; rewrite Hnone; reflexivity).
      cbn [filter]. rewrite Hp. apply (IH Hnd'); [| exact Hrun].
      intros k Hk. apply Hfresh. right. exact Hk.
    + rewrite (clean_loop_cons_some _ _ _ _ Hsome) in Hrun.
      destruct (py_float (price_field d0)) as [p |]; [| discriminate].
      destruct (py_float (change_field d0)) as [c |]; [| discriminate].
      simpl in Hrun.
      assert (Hp : has_price (k0, PDict d0) = true)
        by (unfold has_price; cbn [snd]; destruct (price_field d0);
            reflexivity || contradiction).
      cbn [filter]. rewrite Hp. cbn [map fst].
      assert (Hk0 : ~ In k0 (map fst acc)) by (apply Hfresh; left; reflexivity).
      rewrite (IH Hnd' (dict_set acc k0 (mkQuote p c)) cleaned); [| | exact Hrun].
      * rewrite (dict_set_keys_new _ _ _ Hk0), <- app_assoc. reflexivity.
      * intros k Hk. rewrite (dict_set_keys_new _ _ _ Hk0).
        intros Hin. apply in_app_or in Hin. destruct Hin as [Hin | [<- | []]].
        -- apply (Hfresh k); [right; exact Hk | exact Hin].
        -- apply Hnotin. exact Hk.
Qed.

(** The loop over a concatenation is the loop over its parts in turn. *)
Lemma clean_loop_app xs ys acc :
  clean_loop (xs ++ ys) acc =
  let? mid := clean_loop xs acc in clean_loop ys mid.
Proof.
  revert acc. induction xs as [| [k info] rest IH]; intros acc; [reflexivity |].
  cbn [app]. destruct info as [| | | | | | d]; try reflexivity.
  assert (Hdec : price_field d = PNone \/ price_field d <> PNone)
    by (destruct (price_field d); (left; reflexivity) || (right; discriminate)).
  destruct Hdec as [Hnone | Hsome].
  - rewrite !(clean_loop_cons_none _ _ _ _ Hnone). apply IH.
  - rewrite !(clean_loop_cons_some _ _ _ _ Hsome).
    destruct (py_float (price_field d)) as [p |]; [| reflexivity].
    destruct (py_float (change_field d)) as [c |]; [| reflexivity].
    simpl. apply IH.
Qed.

End CleanMore.

Lemma filter_keys_NoDup {V} (f : string * V -> bool) (items : list (string * V)) :
  NoDup (map fst items) -> NoDup (map fst (filter f items)).
Proof.
  induction items as [| item rest IH]; intros Hnd; simpl; [constructor |].
  inversion Hnd as [| ? ? Hnotin Hrest]; subst.
  destruct (f item); simpl; [| apply IH; exact Hrest].
  constructor; [| apply IH; exact Hrest].
  intros Hin. apply Hnotin. apply in_map_iff in Hin.
  destruct Hin as [x [Hx Hf]]. apply filter_In in Hf.
  apply in_map_iff. exists x. tauto.
Qed.

(** X12: when the cleaning of a reply object returns, the ids of the
    result are exactly the ids of the entries that have a price, in the
    order of the reply, each once; so are the rows [update_history]
    appends for it, and the result is empty exactly when no entry has a
    price. *)
Theorem clean_keeps_reply_order `{RT : Runtime} items cleaned :
  NoDup (map fst items) ->
  clean (PDict items) = Ok cleaned ->
  map fst cleaned = map fst (filter has_price items)
  /\ NoDup (map fst cleaned)
  /\ (forall now,
         map coin_id (history_loop now cleaned [])
         = map fst (filter has_price items))
  /\ (truthy cleaned = false <-> forallb (fun item => negb (has_price item)) items = true).
Proof.
  intros Hnd Hrun. unfold clean in Hrun. simpl in Hrun.
  assert (Hkeys : map fst cleaned = map fst (filter has_price items)).
  { apply (clean_loop_keys items Hnd [] cleaned); [intros k _ [] | exact Hrun]. }
  split; [exact Hkeys |]. split; [| split].
  - rewrite Hkeys. apply filter_keys_NoDup. exact Hnd.
  - intros now. rewrite history_loop_map. simpl. rewrite map_map. simpl.
    exact Hkeys.
  - split.
    + intros Hempty. destruct cleaned; [| discriminate]. simpl in Hkeys.
      apply forallb_forall. intros item Hitem.
      destruct (has_price item) eqn:Hp; [| reflexivity].
      assert (Hin : In item (filter has_price items)) by (apply filter_In; auto).
      destruct (filter has_price items); [destruct Hin | discriminate].
    + intros Hnone. destruct cleaned as [| q rest]; [reflexivity |].
      exfalso. simpl in Hkeys.
      destruct (filter has_price items) as [| item its] eqn:Ef; [discriminate |].
      assert (Hin : In item (filter has_price items)) by (rewrite Ef; left; reflexivity).
      apply filter_In in Hin. destruct Hin as [Hin Hp].
      rewrite forallb_forall in Hnone. specialize (Hnone item Hin).
      rewrite Hp in Hnone. discriminate.
Qed.

Lemma clean_keeps_reply_order_witness :
  map fst [ ("bitcoin"%string, mkQuote (Finite (650001234 # 10000)) (Finite 11));
            ("ethereum"%string, mkQuote (Finite 3000) zero) ]
  = map fst (filter has_price example_reply).
Proof.
  refine (proj1 (clean_keeps_reply_order (RT := example_runtime) example_reply
                   _ _ eq_refl)).
  repeat constructor; simpl; intuition discriminate.
Defined.

(** X13: the cleaning is all or nothing: a decoded reply that is no
    object raises AttributeError, and so does an object whose first entry
    that is no object comes after entries that all convert, whatever
    follows it; no partial result is returned. *)
Theorem clean_stops_at_bad_entry `{RT : Runtime} :
  (forall raw, (forall items, raw <> PDict items) -> clean raw = Raise AttributeError)
  /\ (forall good coin_id info rest,
         forallb entry_convertible good = true ->
         (forall d, info <> PDict d) ->
         clean (PDict (good ++ (coin_id, info) :: rest)) = Raise AttributeError).
Proof.
  split.
  - intros raw Hraw. destruct raw; try reflexivity. exfalso. eapply Hraw. reflexivity.
  - intros good coin_id info rest Hgood Hinfo. unfold clean. simpl.
    rewrite clean_loop_app.
    destruct (clean_loop_total good Hgood []) as [mid ->]. simpl.
    destruct info; try reflexivity. exfalso. eapply Hinfo. reflexivity.
Qed.

(** ** The page *)

(** X14: the metric cards and the log rows built from one fetch agree:
    one card per entry, in order, with the same display name and the same
    risk label as the row logged for that entry, and with the row's price
    and change rounded to 4 and 2 digits. *)
Theorem snapshot_agrees_with_history `{RT : Runtime} live_data now :
  let snap := get_latest_snapshot_df live_data in
  let rows := history_loop now live_data [] in
  List.length snap = List.length live_data
  /\ map Coin snap = map coin_name rows
  /\ map Risk_Level snap = map risk rows
  /\ map Price_USD snap = map (fun r => round_ndigits (price r) 4) rows
  /\ map Change_24h_pct snap = map (fun r => round_ndigits (change_24h r) 2) rows.
Proof.
  intros snap rows. subst snap rows.
  rewrite get_latest_snapshot_df_map, history_loop_map. simpl.
  rewrite length_map, !map_map. repeat split.
Qed.

(** X15: the badge under a card is the red error box exactly when the
    absolute change is at least 10, the yellow warning box exactly when it
    is at least 5 and below 10, and the green success box exactly when it
    is below 5 or NaN. *)
Theorem risk_badge_of_change c :
  (risk_badge (classify_risk c) = StError "Risk: HIGH" <-> abs_ge c 10)
  /\ (risk_badge (classify_risk c) = StWarning "Risk: MEDIUM"
      <-> abs_ge c 5 /\ abs_lt c 10)
  /\ (risk_badge (classify_risk c) = StSuccess "Risk: LOW"
      <-> abs_lt c 5 \/ c = NaN).
Proof.
  unfold classify_risk. cbv zeta.
  destruct (ge_int (fabs c) 10) eqn:E10.
  - pose proof (proj1 (ge_int_abs_ge c 10) E10) as G10.
    cbn. repeat split; auto; try discriminate.
    + intros [_ L]. exfalso. exact (abs_lt_not_ge _ _ L G10).
    + intros [L | ->]; [| discriminate E10].
      exfalso. exact (abs_lt_not_ge _ _ (abs_lt_mono _ L) G10).
  - pose proof (proj1 (ge_int_false_abs_lt c 10) E10) as L10.
    assert (N10 : ~ abs_ge c 10).
    { intros G. apply ge_int_abs_ge in G. congruence. }
    destruct (ge_int (fabs c) 5) eqn:E5.
    + pose proof (proj1 (ge_int_abs_ge c 5) E5) as G5.
      cbn. repeat split; auto; try discriminate; try tauto.
      * destruct L10 as [L | ->]; [exact L | discriminate E5].
      * intros [L | ->]; [| discriminate E5].
        exfalso. exact (abs_lt_not_ge _ _ L G5).
    + pose proof (proj1 (ge_int_false_abs_lt c 5) E5) as L5.
      cbn. repeat split; auto; try discriminate; try tauto.
      intros [G _]. apply ge_int_abs_ge in G. congruence.
Qed.

Lemma risk_badge_not_table risk rows : risk_badge risk <> StDataframe rows.
Proof.
  unfold risk_badge.
  destruct (String.eqb risk "HIGH"); [discriminate |].
  destruct (String.eqb risk "MEDIUM"); discriminate.
Qed.

Lemma risk_badge_not_chart risk c : risk_badge risk <> StLineChart c.
Proof.
  unfold risk_badge.
  destruct (String.eqb risk "HIGH"); [discriminate |].
  destruct (String.eqb risk "MEDIUM"); discriminate.
Qed.

Lemma card_widgets_no_table `{RT : Runtime} rows0 rows :
  ~ In (StDataframe rows) (flat_map card_widgets rows0).
Proof.
  intros Hin. apply in_flat_map in Hin. destruct Hin as [row [_ Hin]].
  unfold card_widgets in Hin. simpl in Hin.
  destruct Hin as [H | [H | [H | []]]]; try discriminate.
  exact (risk_badge_not_table _ _ H).
Qed.

Lemma card_widgets_no_chart `{RT : Runtime} rows0 c :
  ~ In (StLineChart c) (flat_map card_widgets rows0).
Proof.
  intros Hin. apply in_flat_map in Hin. destruct Hin as [row [_ Hin]].
  unfold card_widgets in Hin. simpl in Hin.
  destruct Hin as [H | [H | [H | []]]]; try discriminate.
  exact (risk_badge_not_chart _ _ H).
Qed.

Lemma truthy_true_ex {A} (l : list A) : truthy l = true <-> exists x, In x l.
Proof.
  destruct l as [| x rest]; simpl; split.
  - discriminate.
  - intros [x []].
  - intros _. exists x. left. reflexivity.
  - reflexivity.
Qed.

(** X16: what the three views hold.  The raw table is shown only for a
    non-empty history and never has more than 100 rows; the chart is shown
    exactly when some logged row has a selected name, and it is the pivot
    of the rows with selected names; every entry of the last fetch has its
    card, headed by its display name and closed by the badge of its
    change. *)
Theorem view_widgets_shape `{RT : Runtime} selected live_data history_df :
  let page := view_widgets selected live_data history_df in
  (forall rows,
      In (StDataframe rows) page ->
      (List.length rows <= 100)%nat /\ history_df <> []
      /\ rows = firstn 100 (sort_values_timestamp_desc history_df))
  /\ (forall c,
         In (StLineChart c) page
         <-> c = chart_df (filter_isin history_df selected)
             /\ exists r, In r history_df /\ In (coin_name r) selected)
  /\ (forall coin_id info,
         In (coin_id, info) live_data ->
         In (StMarkdown ("### " ++ display_name coin_id)%string) page
         /\ In (risk_badge (classify_risk (q_change_24h info))) page).
Proof.
  intros page. subst page. unfold view_widgets. split; [| split].
  - intros rows Hin. apply in_app_or in Hin. destruct Hin as [Hin | Hin].
    + destruct (negb (truthy live_data)).
      * destruct Hin as [H | []]. discriminate.
      * exfalso. exact (card_widgets_no_table _ _ Hin).
    + apply in_app_or in Hin. destruct Hin as [Hin | Hin].
      * destruct (negb (truthy history_df)).
        -- destruct Hin as [H | []]. discriminate.
        -- cbv zeta in Hin.
           destruct (negb (truthy (filter_isin history_df selected)));
             destruct Hin as [H | []]; discriminate.
      * remember (firstn 100 (sort_values_timestamp_desc history_df)) as shown
          eqn:Eshown.
        destruct history_df as [| r0 h0]; cbn [truthy negb] in Hin.
        -- destruct Hin as [H | []]. discriminate.
        -- destruct Hin as [H | []]. injection H as <-.
           split; [rewrite Eshown; apply firstn_le_length |].
           split; [discriminate | reflexivity].
  - intros c. split.
    + intros Hin. apply in_app_or in Hin. destruct Hin as [Hin | Hin].
      * destruct (negb (truthy live_data)).
        -- destruct Hin as [H | []]. discriminate.
        -- exfalso. exact (card_widgets_no_chart _ _ Hin).
      * apply in_app_or in Hin. destruct Hin as [Hin | Hin].
        -- destruct (negb (truthy history_df)).
           ++ destruct Hin as [H | []]. discriminate.
           ++ cbv zeta in Hin.
              destruct (truthy (filter_isin history_df selected)) eqn:Et;
                cbn [negb] in Hin; destruct Hin as [H | []]; try discriminate.
              injection H as <-. split; [reflexivity |].
              apply truthy_true_ex in Et. destruct Et as [r Hr].
              exists r. unfold filter_isin in Hr. apply filter_In in Hr.
              destruct Hr as [Hr Hsel]. apply isin_In in Hsel. auto.
        -- destruct (negb (truthy history_df));
             destruct Hin as [H | []]; discriminate.
    + intros [-> [r [Hr Hsel]]]. apply in_or_app. right. apply in_or_app. left.
      assert (Hf : In r (filter_isin history_df selected)).
      { unfold filter_isin. apply filter_In. split; [exact Hr |].
        apply isin_In. exact Hsel. }
      assert (Hh : truthy history_df = true)
        by (apply truthy_true_ex; exists r; exact Hr).
      assert (Ht : truthy (filter_isin history_df selected) = true)
        by (apply truthy_true_ex; exists r; exact Hf).
      rewrite Hh. cbn [negb]. cbv zeta. rewrite Ht. left. reflexivity.
  - intros coin_id info Hin.
    assert (Hd : truthy live_data = true)
      by (apply truthy_true_ex; exists (coin_id, info); exact Hin).
    rewrite Hd. cbn [negb].
    assert (Hcard : forall x,
               In x (card_widgets (snapshot_row_of (coin_id, info))) ->
               In x (flat_map card_widgets (get_latest_snapshot_df live_data))).
    { intros x Hx. apply in_flat_map. exists (snapshot_row_of (coin_id, info)).
      split; [| exact Hx]. rewrite get_latest_snapshot_df_map.
      apply in_map. exact Hin. }
    split; apply in_or_app; left; apply Hcard; unfold card_widgets; simpl; auto.
Qed.


(** ** Further properties of the classification, the chart and the session *)

Lemma ge_int_Qle_mono n q q' :
  (q <= q')%Q -> ge_int (Finite q) n = true -> ge_int (Finite q') n = true.
Proof.
  simpl. intros Hle H. apply Qle_bool_iff in H. apply Qle_bool_iff.
  eapply Qle_trans; eassumption.
Qed.

Lemma classify_risk_rank_mono q q' :
  (Qabs q <= Qabs q')%Q ->
  (risk_rank (classify_risk (Finite q)) <= risk_rank (classify_risk (Finite q')))%nat.
Proof.
  intros Hle. unfold classify_risk. cbv zeta. cbn [fabs].
  destruct (ge_int (Finite (Qabs q)) 10) eqn:E10.
  - rewrite (ge_int_Qle_mono 10 _ _ Hle E10). apply le_n.
  - destruct (ge_int (Finite (Qabs q)) 5) eqn:E5.
    + rewrite (ge_int_Qle_mono 5 _ _ Hle E5).
      destruct (ge_int (Finite (Qabs q')) 10); cbn; auto.
    + destruct (ge_int (Finite (Qabs q')) 10);
        [| destruct (ge_int (Finite (Qabs q')) 5)]; cbn; auto.
Qed.

Lemma classify_risk_label c :
  classify_risk c = "HIGH" \/ classify_risk c = "MEDIUM" \/ classify_risk c = "LOW".
Proof.
  unfold classify_risk. cbv zeta.
  destruct (ge_int (fabs c) 10); [| destruct (ge_int (fabs c) 5)]; auto.
Qed.

Lemma risk_rank_inj_on_labels c c' :
  risk_rank (classify_risk c) = risk_rank (classify_risk c') ->
  classify_risk c = classify_risk c'.
Proof.
  destruct (classify_risk_label c) as [-> | [-> | ->]],
           (classify_risk_label c') as [-> | [-> | ->]];
    cbn; intros H; congruence.
Qed.

(** X18: the label depends on the size of the change only and never
    drops as the size grows: a change and its opposite get the same label,
    two rationals that are equal as numbers get the same label, and the
    larger absolute change gets the label of higher or equal rank (LOW,
    MEDIUM, HIGH); both infinities are HIGH. *)
Theorem classify_risk_monotone :
  (forall q q',
      (Qabs q <= Qabs q')%Q ->
      (risk_rank (classify_risk (Finite q))
       <= risk_rank (classify_risk (Finite q')))%nat)
  /\ (forall q, classify_risk (Finite (- q)) = classify_risk (Finite q))
  /\ (forall q q', (q == q')%Q -> classify_risk (Finite q) = classify_risk (Finite q'))
  /\ classify_risk PosInf = "HIGH"
  /\ classify_risk NegInf = "HIGH".
Proof.
  assert (Hsame : forall q q',
             (Qabs q == Qabs q')%Q ->
             classify_risk (Finite q) = classify_risk (Finite q')).
  { intros q q' Heq. apply risk_rank_inj_on_labels. apply Nat.le_antisymm.
    - apply classify_risk_rank_mono. rewrite Heq. apply Qle_refl.
    - apply classify_risk_rank_mono. rewrite Heq. apply Qle_refl. }
  split; [exact classify_risk_rank_mono |].
  split; [intros q; apply Hsame, Qabs_opp |].
  split; [intros q q' Heq; apply Hsame; rewrite Heq; reflexivity |].
  split; reflexivity.
Qed.

(** *** Gaps in the chart *)

Lemma pivot_cell_eq filtered t c :
  In t (map fst (pv_rows (chart_df filtered))) ->
  In c (pv_columns (chart_df filtered)) ->
  pivot_cell (chart_df filtered) t c
  = Some (agg_last (map price (filter (in_group t c) filtered))).
Proof.
  rewrite chart_df_rows. intros Ht Hc. unfold pivot_cell, pivot_row.
  unfold pivot_table_last in *. simpl in *.
  rewrite map_map in Ht. simpl in Ht. rewrite map_id in Ht.
  rewrite (find_row_map _ t _ Ht). simpl.
  apply (dict_get_combine_map
           (fun c => agg_last (map price (filter (in_group t c) filtered)))).
  exact Hc.
Qed.

Lemma last_In {A} (l : list A) (d : A) : l <> [] -> In (last l d) l.
Proof.
  induction l as [| x rest IH]; intros Hne; [contradiction |].
  destruct rest as [| y rest']; [left; reflexivity |].
  right. apply IH. discriminate.
Qed.

Lemma agg_last_nan values :
  agg_last values = NaN <-> forall v, In v values -> v = NaN.
Proof.
  unfold agg_last. split.
  - intros H v Hv. destruct (notna v) eqn:Ev.
    + exfalso.
      assert (Hin : In v (filter notna values)) by (apply filter_In; auto).
      assert (Hne : filter notna values <> [])
        by (intros E; rewrite E in Hin; destruct Hin).
      pose proof (last_In _ NaN Hne) as Hl. rewrite H in Hl.
      apply filter_In in Hl. destruct Hl as [_ Hl]. discriminate.
    + destruct v; try discriminate; reflexivity.
  - intros Hall.
    assert (E : filter notna values = []).
    { induction values as [| v rest IH]; [reflexivity |].
      simpl. rewrite (Hall v (or_introl eq_refl)). simpl.
      apply IH. intros v' Hv'. apply Hall. right. exact Hv'. }
    rewrite E. reflexivity.
Qed.

Lemma pivot_rows_rectangular filtered row :
  In row (pv_rows (chart_df filtered)) ->
  List.length (snd row) = List.length (pv_columns (chart_df filtered)).
Proof.
  rewrite chart_df_rows. unfold pivot_table_last. simpl.
  intros Hin. apply in_map_iff in Hin. destruct Hin as [t [<- _]].
  simpl. apply length_map.
Qed.

(** X19: the chart frame is rectangular, every row having one cell per
    column, and a cell is NaN, a gap in that asset's line, exactly when
    the filtered history has no row with a price for that asset at that
    timestamp. *)
Theorem chart_df_gaps filtered :
  (forall row,
      In row (pv_rows (chart_df filtered)) ->
      List.length (snd row) = List.length (pv_columns (chart_df filtered)))
  /\ (forall t c,
         In t (map fst (pv_rows (chart_df filtered))) ->
         In c (pv_columns (chart_df filtered)) ->
         (pivot_cell (chart_df filtered) t c = Some NaN
          <-> forall r,
                In r filtered -> timestamp r = t -> coin_name r = c ->
                price r = NaN)).
Proof.
  split; [apply pivot_rows_rectangular |].
  intros t c Ht Hc. rewrite (pivot_cell_eq filtered t c Ht Hc). split.
  - intros H r Hr Htr Hcr. injection H as H.
    apply (proj1 (agg_last_nan _) H). apply in_map.
    apply filter_In. split; [exact Hr |].
    unfold in_group. rewrite Htr, Hcr, Z.eqb_refl, String.eqb_refl. reflexivity.
  - intros Hall. f_equal. apply agg_last_nan. intros v Hv.
    apply in_map_iff in Hv. destruct Hv as [r [<- Hr]].
    apply filter_In in Hr. destruct Hr as [Hr Hg].
    unfold in_group in Hg. apply andb_true_iff in Hg. destruct Hg as [Hgt Hgc].
    apply Z.eqb_eq in Hgt. apply String.eqb_eq in Hgc.
    exact (Hall r Hr Hgt Hgc).
Qed.

(** *** The two session keys together *)

(** What a run can do to the log and the last fetch: leave both as they
    read, or append the rows of a non-empty cleaned reply and keep that
    reply. *)
Lemma main_session_cases `{RT : Runtime} env w :
  (history_of (session (run w env)) = history_of (session w)
   /\ last_live_data_of (session (run w env)) = last_live_data_of (session w))
  \/ (exists live_data,
         truthy live_data = true
         /\ history_of (session (run w env))
            = history_of (session w) ++ map (observation_of (utcnow env)) live_data
         /\ last_live_data_of (session (run w env)) = live_data).
Proof.
  unfold run.
  destruct (lookup_ids (selected_coins_display env)) as [ids | e0] eqn:Hids.
  - rewrite (main_run env ids w Hids).
    destruct (clicked env);
      [| left; rewrite main_tail_run; split; reflexivity].
    rewrite on_fetch_click_run.
    destruct (truthy ids); cbn [negb];
      [| left; rewrite main_tail_run; split; reflexivity].
    cbv zeta.
    destruct (try_outcome_of (http_reply env (price_request ids)))
      as [e1 | raw | e1];
      [left; rewrite main_tail_run; split; reflexivity
      | | left; split; reflexivity].
    destruct (clean raw) as [live_data | e1]; [| left; split; reflexivity].
    rewrite main_tail_run. destruct (truthy live_data) eqn:Hne.
    + right. exists live_data. repeat split. exact Hne.
    + left. split; reflexivity.
  - left. unfold main. unfold bind at 1. unfold lift. rewrite Hids.
    split; reflexivity.
Qed.

Lemma run_keeps_log_tail `{RT : Runtime} env w :
  log_ends_with_last_fetch w -> log_ends_with_last_fetch (run w env).
Proof.
  intros [earlier [now Hw]]. unfold log_ends_with_last_fetch.
  destruct (main_session_cases env w) as [[Hh Hl] | [live_data [_ [Hh Hl]]]].
  - exists earlier, now. rewrite Hh, Hl. exact Hw.
  - exists (history_of (session w)), (utcnow env). rewrite Hh, Hl. reflexivity.
Qed.

(** X20: throughout a browser session the log ends with the rows of the
    last fetch: the entries behind the metric cards are always the most
    recent rows of the history, in the same order; a failed or empty
    refresh changes neither. *)
Theorem last_fetch_is_log_tail `{RT : Runtime} envs :
  exists earlier now,
    history_of (session (run_all envs))
    = earlier
        ++ map (observation_of now) (last_live_data_of (session (run_all envs))).
Proof.
  unfold run_all.
  assert (H : forall w,
             log_ends_with_last_fetch w ->
             log_ends_with_last_fetch (fold_left run envs w)).
  { induction envs as [| env rest IH]; intros w Hw; simpl; [exact Hw |].
    apply IH. apply run_keeps_log_tail. exact Hw. }
  apply H. exists [], 0. reflexivity.
Qed.

(** X21: a call of [update_history] returns normally and changes nothing
    but the history: the last fetch, the page and the request trace stay
    as they were, the history key is present afterwards, and two calls at
    the same clock reading append what one call on the two fetch results
    in a row appends. *)
Theorem update_history_frame env live_data w :
  let w' := snd (update_history env live_data w) in
  fst (update_history env live_data w) = Ok tt
  /\ ss_last_live_data (session w') = ss_last_live_data (session w)
  /\ widgets w' = widgets w
  /\ requests w' = requests w
  /\ ss_history (session w') <> None
  /\ (forall more,
         history_of (session (snd (update_history env more w')))
         = history_of (session (snd (update_history env (live_data ++ more) w)))).
Proof.
  intros w'. subst w'. rewrite update_history_run. cbn [fst snd session widgets
    requests ss_last_live_data ss_history].
  repeat split; try discriminate.
  intros more. rewrite !update_history_history. cbn [session history_of ss_history].
  rewrite map_app, app_assoc. reflexivity.
Qed.

(** ** A failed API call *)

(** C2, as worded, fails for a status outside 200-299 that
    [raise_for_status] lets through: a reply with status 300 and a JSON
    body is taken as a success, with a non-empty result, no error message
    and a changed history. *)
Lemma non_2xx_status_taken_as_success :
  ~ (200 <= 300 < 300)
  /\ fetch_live_prices (RT := example_runtime) example_redirect_env
       ["bitcoin"%string] initial_world
     = (Ok [ ("bitcoin"%string, mkQuote (Finite (650001234 # 10000)) (Finite 11));
             ("ethereum"%string, mkQuote (Finite 3000) zero) ],
        mkWorld (mkSession None None) [] [price_request ["bitcoin"%string]])
  /\ history_of (session (run (RT := example_runtime) initial_world
                            example_redirect_env))
     = [ mkObservation 1700000060 "Bitcoin (BTC)" "bitcoin"
           (Finite (650001234 # 10000)) (Finite 11) "HIGH";
         mkObservation 1700000060 "Ethereum (ETH)" "ethereum"
           (Finite 3000) zero "LOW" ]
  /\ history_of (session initial_world) = [].
Proof. split; [lia | repeat split]. Qed.

(** C2 (amended): when the API call for a non-empty selection fails with
    a [RequestException], that is a network error or timeout raised by
    the call, a status from 400 to 599, or a body whose decoding raises
    one, the fetch returns the empty mapping without raising, having sent
    the one request and shown one error message; the button block changes
    nothing else; and the run returns normally, showing the error message
    followed by the views of the session as it was, the log and the last
    fetch reading as before. *)
Theorem fetch_failure_contained `{RT : Runtime} env id ids e w :
  api_call_fails (http_reply env (price_request (id :: ids))) e ->
  let notice := StError ("❌ Error calling CoinGecko API: " ++ e)%string in
  let w_err :=
    mkWorld (session w) (widgets w ++ [notice])
      (requests w ++ [price_request (id :: ids)]) in
  fetch_live_prices env (id :: ids) w = (Ok [], w_err)
  /\ on_fetch_click env (id :: ids) w = (Ok tt, w_err)
  /\ (clicked env = true ->
      lookup_ids (selected_coins_display env) = Ok (id :: ids) ->
      main env w
      = (Ok tt,
         mkWorld
           (mkSession (Some (history_of (session w)))
              (Some (last_live_data_of (session w))))
           (widgets w ++ [notice]
              ++ view_widgets (selected_coins_display env)
                   (last_live_data_of (session w)) (history_of (session w)))
           (requests w ++ [price_request (id :: ids)]))
      /\ history_of (session (run w env)) = history_of (session w)
      /\ last_live_data_of (session (run w env)) = last_live_data_of (session w)).
Proof.
  intros Hfail notice w_err. apply try_outcome_fails in Hfail.
  pose proof (fetch_failure_run env id ids e w Hfail) as Hf.
  assert (Hc : on_fetch_click env (id :: ids) w = (Ok tt, w_err)).
  { rewrite on_fetch_click_run. cbn [truthy negb]. cbv zeta. rewrite Hfail.
    reflexivity. }
  split; [exact Hf | split; [exact Hc |]].
  intros Hclick Hids.
  assert (Hm : main env w
               = (Ok tt,
                  mkWorld
                    (mkSession (Some (history_of (session w)))
                       (Some (last_live_data_of (session w))))
                    (widgets w ++ [notice]
                       ++ view_widgets (selected_coins_display env)
                            (last_live_data_of (session w)) (history_of (session w)))
                    (requests w ++ [price_request (id :: ids)]))).
  { rewrite (main_run env (id :: ids) w Hids), Hclick, Hc, main_tail_run.
    subst w_err. cbn [session widgets requests]. rewrite <- app_assoc.
    reflexivity. }
  split; [exact Hm |]. unfold run. rewrite Hm. split; reflexivity.
Qed.

Lemma fetch_failure_contained_witness :
  fst (main (RT := example_runtime) example_down_env example_logged_world) = Ok tt
  /\ history_of (session (run (RT := example_runtime) example_logged_world
                            example_down_env))
     = [ mkObservation 1700000000 "Bitcoin (BTC)" "bitcoin"
           (Finite (650001234 # 10000)) (Finite 11) "HIGH";
         mkObservation 1700000000 "Ethereum (ETH)" "ethereum"
           (Finite 3000) zero "LOW" ].
Proof.
  assert (Hfail : api_call_fails
                    (http_reply example_down_env (price_request ["bitcoin"%string]))
                    "503 Server Error: Service Unavailable").
  { right. left. eexists. split; [reflexivity |]. split; [simpl; lia | reflexivity]. }
  pose proof (proj2 (proj2 (fetch_failure_contained (RT := example_runtime)
                              example_down_env "bitcoin" []
                              "503 Server Error: Service Unavailable"
                              example_logged_world Hfail))
                eq_refl eq_refl) as [Hm [Hh _]].
  split.
  - exact (f_equal fst Hm).
  - exact Hh.
Defined.

(** A body that [response.json()] cannot decode because it is nested too
    deeply: the exception is no [RequestException], leaves the [try] block
    and ends the run with the session as it was. *)
Example run_deep_body_escapes :
  main (RT := example_runtime) example_deep_env example_logged_world
  = (Raise RecursionError,
     mkWorld (session example_logged_world) (widgets example_logged_world)
       (requests example_logged_world ++ [price_request ["bitcoin"%string]])).
Proof. reflexivity. Qed.

(** ** The chart of a filtered history *)

Lemma notna_true x : notna x = true <-> x <> NaN.
Proof.
  destruct x; cbn; split; intros H;
    try reflexivity; try discriminate; try (exfalso; apply H; reflexivity).
Qed.

Lemma filter_notna_nil values :
  (forall v, In v values -> v = NaN) -> filter notna values = [].
Proof.
  induction values as [| v rest IH]; intros Hall; [reflexivity |].
  simpl. rewrite (Hall v (or_introl eq_refl)). simpl.
  apply IH. intros v' Hv'. apply Hall. right. exact Hv'.
Qed.

(** C5, as worded, fails on NaN prices: after two refreshes whose replies
    carry NaN prices the log holds, for "Bitcoin (BTC)" at clock reading
    1, a price of 2.0 followed by a NaN price, and at clock reading 2 a
    NaN price only; the chart shows 2.0, not the last recorded price, at
    1 and has no row at all for 2. *)
Lemma chart_df_not_last_recorded :
  let log := history_of (session (run_all (RT := example_runtime) example_nan_envs)) in
  let chart := chart_df (filter_isin log ["Bitcoin (BTC)"%string]) in
  log = [ mkObservation 1 "Bitcoin (BTC)" "bitcoin" (Finite 2) zero "LOW";
          mkObservation 1 "Bitcoin (BTC)" "Bitcoin (BTC)" NaN zero "LOW";
          mkObservation 2 "Bitcoin (BTC)" "bitcoin" NaN zero "LOW" ]
  /\ pivot_cell chart 1 "Bitcoin (BTC)" = Some (Finite 2)
  /\ pivot_cell chart 1 "Bitcoin (BTC)" <> Some NaN
  /\ map fst (pv_rows chart) = [1].
Proof.
  repeat split. discriminate.
Qed.

(** C5 (amended): the chart frame has exactly one row per timestamp at
    which some row of the filtered history has a non-NaN price, in
    strictly ascending order, and exactly one column per asset name that
    has a non-NaN price; the cell of a timestamp and an asset is the price
    of the last row of the filtered history with that timestamp, that
    asset name and a non-NaN price. *)
Theorem chart_df_spec filtered :
  let chart := chart_df filtered in
  let index := map fst (pv_rows chart) in
  StronglySorted Z.lt index
  /\ (forall t,
         In t index
         <-> exists r, In r filtered /\ timestamp r = t /\ price r <> NaN)
  /\ NoDup (pv_columns chart)
  /\ (forall c,
         In c (pv_columns chart)
         <-> exists r, In r filtered /\ coin_name r = c /\ price r <> NaN)
  /\ (forall before r after,
         filtered = before ++ r :: after ->
         price r <> NaN ->
         (forall r',
             In r' after ->
             timestamp r' = timestamp r ->
             coin_name r' = coin_name r ->
             price r' = NaN) ->
         pivot_cell chart (timestamp r) (coin_name r) = Some (price r)).
Proof.
  intros chart index. subst index chart.
  assert (Hidx : forall t,
             In t (map fst (pv_rows (chart_df filtered)))
             <-> exists r, In r filtered /\ timestamp r = t /\ price r <> NaN).
  { intros t. rewrite chart_df_rows, pivot_index_In.
    split; intros [r [Hr [Ht Hp]]]; exists r; repeat split; trivial;
      apply notna_true; exact Hp. }
  assert (Hcol : forall c,
             In c (pv_columns (chart_df filtered))
             <-> exists r, In r filtered /\ coin_name r = c /\ price r <> NaN).
  { intros c. rewrite chart_df_rows, pivot_columns_In.
    split; intros [r [Hr [Hc Hp]]]; exists r; repeat split; trivial;
      apply notna_true; exact Hp. }
  split; [| split; [exact Hidx | split; [| split; [exact Hcol |]]]].
  - rewrite chart_df_rows. unfold pivot_table_last. simpl.
    rewrite map_map. simpl. rewrite map_id.
    apply (sort_uniq_StronglySorted Z.compare Z.lt Z.compare_spec Z.lt_strorder).
  - rewrite chart_df_rows. unfold pivot_table_last. simpl.
    apply (StronglySorted_NoDup String_as_OT.lt String_as_OT.lt_strorder).
    apply (sort_uniq_StronglySorted String_as_OT.compare String_as_OT.lt
             String_as_OT.compare_spec String_as_OT.lt_strorder).
  - intros before r after -> Hprice Hlater.
    assert (Hin : In r (before ++ r :: after))
      by (apply in_or_app; right; left; reflexivity).
    rewrite pivot_cell_eq;
      [| apply Hidx; exists r; auto | apply Hcol; exists r; auto].
    f_equal. unfold agg_last.
    rewrite filter_app, map_app, filter_app. cbn [filter].
    assert (Hg : in_group (timestamp r) (coin_name r) r = true)
      by (unfold in_group; rewrite Z.eqb_refl, String.eqb_refl; reflexivity).
    rewrite Hg. cbn [map filter].
    rewrite (proj2 (notna_true (price r)) Hprice).
    rewrite (filter_notna_nil
               (map price (filter (in_group (timestamp r) (coin_name r)) after))).
    + apply last_last.
    + intros v Hv. apply in_map_iff in Hv. destruct Hv as [r' [<- Hr']].
      apply filter_In in Hr'. destruct Hr' as [Hr' Hg'].
      unfold in_group in Hg'. apply andb_true_iff in Hg'.
      destruct Hg' as [Ht' Hc']. apply Z.eqb_eq in Ht'. apply String.eqb_eq in Hc'.
      exact (Hlater r' Hr' Ht' Hc').
Qed.
